(** * The e-commerce API of [main.py]: users, carts and checkout

    A shallow embedding of the request handlers of [main.py] and of the
    three module-level stores they share ([users_db], [next_user_id],
    [carts_db]), followed by the properties of registration, login, the cart
    and checkout.

    Conventions of the embedding.
    - A Python [int] is a [Z]; a Python [float] is an IEEE 754 binary64
      number, Rocq's primitive [float].
    - A [str] is a [string] (UTF-8 bytes); [==] on [str] is [String.eqb].
    - A dict used as a record (a product, a user, a cart line) is a [Record];
      its keys are the fields, prefixed where two records share a key.
    - [carts_db], a dict keyed by user id, is a [gmap Z (list CartItem)].
    - A handler is a function from the stores to an [outcome] and the stores
      after the call.
    - [bcrypt] is outside the program: its two functions are variables of
      the section, and the random salt is an input of the request.
      [bcrypt.checkpw] returns a [bool] or raises [ValueError] (as bcrypt 5
      does for a password of more than 72 bytes); [bcrypt.hashpw] is taken
      where it returns a hash.
    - FastAPI and pydantic are outside the program too: a handler starts
      from arguments that were parsed and validated, and ends with the value
      it returns or the exception it raises.

    The routes [/], [/products], [/products/{product_id}], [/users] and
    [/stats] only read the stores or the catalogue; the handlers that the
    properties are about are [register_user], [login_user], [add_to_cart],
    [get_cart] and [checkout]. *)

From Stdlib Require Import ZArith String Ascii List Lia.
From Stdlib Require Import Floats.PrimFloat Floats.SpecFloat Floats.FloatOps.
From stdpp Require Import gmap list.

Import ListNotations.
Local Open Scope string_scope.
Local Open Scope list_scope.
Local Open Scope Z_scope.

(* The prices of the catalogue are decimal literals; as in Python each one
   denotes the nearest binary64 number. *)
Set Warnings "-inexact-float".

(** ** 1. Models (the pydantic classes and the dict-shaped records) *)

(** [class Product] and the entries of [sample_products]. *)
Record Product := mkProduct {
  p_id : Z;
  p_name : string;
  p_description : option string;
  p_price : float;
  p_image : option string
}.

(** [class UserRegister]. *)
Record UserRegister := mkUserRegister {
  reg_username : string;
  reg_email : string;
  reg_password : string
}.

(** [class UserLogin]. *)
Record UserLogin := mkUserLogin {
  username_or_email : string;
  login_password : string
}.

(** An entry of [users_db]: keys "id", "username", "email",
    "hashed_password". *)
Record User := mkUser {
  u_id : Z;
  u_username : string;
  u_email : string;
  u_hashed_password : string
}.

(** [class UserResponse], the public view of a user: it has no field for the
    password hash. *)
Record UserResponse := mkUserResponse {
  r_id : Z;
  r_username : string;
  r_email : string
}.

(** [class CartItem], also the shape of a line stored in a cart. *)
Record CartItem := mkCartItem {
  product_id : Z;
  quantity : Z
}.

(** A line of the "items" list built by [get_cart]. *)
Record CartLine := mkCartLine {
  cl_product_id : Z;
  cl_name : string;
  cl_price : float;
  cl_quantity : Z;
  cl_item_total : float;
  cl_image : option string
}.

(** [class CartResponse]. *)
Record CartResponse := mkCartResponse {
  cart_user_id : Z;
  cart_items : list CartLine;
  total_items : Z
}.

(** A line of the "items" list built by [checkout] (no "image" key). *)
Record OrderLine := mkOrderLine {
  ol_product_id : Z;
  ol_name : string;
  ol_price : float;
  ol_quantity : Z;
  ol_item_total : float
}.

(** [class CheckoutResponse]. *)
Record CheckoutResponse := mkCheckoutResponse {
  co_user_id : Z;
  co_items : list OrderLine;
  subtotal : float;
  total : float;
  co_message : string
}.

(** The dict returned by [login_user]. *)
Record LoginResponse := mkLoginResponse {
  login_message : string;
  login_user_view : UserResponse
}.

(** The dict returned by [add_to_cart]. *)
Record AddResponse := mkAddResponse {
  add_message : string;
  add_cart_item : CartItem;
  add_user_id : Z
}.

(** What a call of a handler produces: the value it returns, the
    [HTTPException] it raises, the [OverflowError] that Python raises when
    an [int] too large for a [float] meets a [float] in a product, or the
    [ValueError] that [bcrypt.checkpw] raises and no handler catches. *)
Inductive outcome (A : Type) : Type :=
| Return (a : A)
| HTTPException (status_code : Z) (detail : string)
| OverflowError
| ValueError.

Arguments Return {A} a.
Arguments HTTPException {A} status_code detail.
Arguments OverflowError {A}.
Arguments ValueError {A}.

Definition HTTP_400_BAD_REQUEST : Z := 400.
Definition HTTP_401_UNAUTHORIZED : Z := 401.
Definition HTTP_404_NOT_FOUND : Z := 404.

(** ** 2. Sample data and the in-memory stores *)

Definition sample_products : list Product :=
  [ mkProduct 1 "iPhone 15 Pro" (Some "Latest iPhone with advanced camera")
      999.99%float (Some "https://example.com/iphone15.jpg");
    mkProduct 2 "Samsung Galaxy S23" (Some "Powerful Android smartphone")
      899.99%float (Some "https://example.com/galaxy_s23.jpg");
    mkProduct 3 "MacBook Air M2" (Some "Ultra-thin laptop with M2 chip")
      1299.99%float (Some "https://example.com/macbook_air.jpg");
    mkProduct 4 "Sony Headphones" (Some "Wireless noise-canceling headphones")
      349.99%float (Some "https://example.com/sony_headphones.jpg");
    mkProduct 5 "Nike Shoes" (Some "Classic basketball shoes")
      175.99%float (Some "https://example.com/nike_shoes.jpg") ].

(** The three module-level variables. *)
Record state := mkState {
  users_db : list User;
  next_user_id : Z;
  carts_db : gmap Z (list CartItem)
}.

Definition initial_state : state :=
  {| users_db := []; next_user_id := 1; carts_db := ∅ |}.

(** ** 3. Floating point: [float * int] *)

(** The conversion of an [int] to a [float] that [float.__mul__] performs on
    its [int] operand: round to nearest, ties to even, and [OverflowError]
    ([None]) when the rounded value is not finite. *)
Definition int_to_float (n : Z) : option float :=
  match binary_normalize prec emax n 0 false with
  | S754_infinity _ => None
  | s => Some (SF2Prim s)
  end.

(** [x * n] for a [float] [x] and an [int] [n]. *)
Definition float_mul_int (x : float) (n : Z) : option float :=
  match int_to_float n with
  | Some y => Some (x * y)%float
  | None => None
  end.

(** ** 4. Helper functions *)

Definition find_user_by_username (st : state) (username : string) : option User :=
  find (fun user => String.eqb (u_username user) username) (users_db st).

Definition find_user_by_email (st : state) (email : string) : option User :=
  find (fun user => String.eqb (u_email user) email) (users_db st).

(** ["@" in identifier].  The byte 64 occurs in a UTF-8 string only as the
    character "@", so the search over bytes is the search over characters. *)
Fixpoint contains_at (identifier : string) : bool :=
  match identifier with
  | EmptyString => false
  | String c rest => Ascii.eqb c "@"%char || contains_at rest
  end.

Definition find_user_by_username_or_email (st : state) (identifier : string)
  : option User :=
  if contains_at identifier
  then find_user_by_email st identifier
  else find_user_by_username st identifier.

Definition find_product_by_id (pid : Z) : option Product :=
  find (fun product => p_id product =? pid) sample_products.

(** The public view of a stored user. *)
Definition user_view (user : User) : UserResponse :=
  {| r_id := u_id user; r_username := u_username user; r_email := u_email user |}.

(** ** 5. The handlers *)

(** The loop of [add_to_cart] over the cart: [Some] of the updated cart when
    the loop reaches [break], [None] when it ends without (the [else] of the
    [for]). *)
Fixpoint merge_into (cart : list CartItem) (cart_item : CartItem)
  : option (list CartItem) :=
  match cart with
  | [] => None
  | item :: rest =>
      if product_id item =? product_id cart_item
      then Some ({| product_id := product_id item;
                    quantity := quantity item + quantity cart_item |} :: rest)
      else option_map (cons item) (merge_into rest cart_item)
  end.

Definition add_to_cart (cart_item : CartItem) (user_id : Z) (st : state)
  : outcome AddResponse * state :=
  if negb (existsb (fun user => u_id user =? user_id) (users_db st))
  then (HTTPException HTTP_404_NOT_FOUND "User not found", st)
  else
    match find_product_by_id (product_id cart_item) with
    | None => (HTTPException HTTP_404_NOT_FOUND "Product not found", st)
    | Some _ =>
        let cart := default [] (carts_db st !! user_id) in
        let cart' :=
          match merge_into cart cart_item with
          | Some merged => merged
          | None => cart ++ [ {| product_id := product_id cart_item;
                                 quantity := quantity cart_item |} ]
          end in
        (Return {| add_message := "Product added to cart";
                   add_cart_item := cart_item;
                   add_user_id := user_id |},
         {| users_db := users_db st;
            next_user_id := next_user_id st;
            carts_db := <[user_id := cart']> (carts_db st) |})
    end.

(** The loop of [get_cart]; [None] when a product raises [OverflowError]. *)
Fixpoint get_cart_loop (cart : list CartItem)
    (items : list CartLine) (count : Z) : option (list CartLine * Z) :=
  match cart with
  | [] => Some (items, count)
  | cart_item :: rest =>
      match find_product_by_id (product_id cart_item) with
      | Some product =>
          match float_mul_int (p_price product) (quantity cart_item) with
          | Some item_total =>
              get_cart_loop rest
                (items ++ [ {| cl_product_id := p_id product;
                               cl_name := p_name product;
                               cl_price := p_price product;
                               cl_quantity := quantity cart_item;
                               cl_item_total := item_total;
                               cl_image := p_image product |} ])
                (count + quantity cart_item)
          | None => None
          end
      | None => get_cart_loop rest items count
      end
  end.

Definition get_cart (user_id : Z) (st : state) : outcome CartResponse * state :=
  match carts_db st !! user_id with
  | None => (HTTPException HTTP_404_NOT_FOUND "Cart not found for this user", st)
  | Some cart =>
      match get_cart_loop cart [] 0 with
      | Some (items, count) =>
          (Return {| cart_user_id := user_id;
                     cart_items := items;
                     total_items := count |}, st)
      | None => (OverflowError, st)
      end
  end.

(** The loop of [checkout]; [None] when a product raises [OverflowError]. *)
Fixpoint checkout_loop (cart : list CartItem)
    (items : list OrderLine) (sub : float) : option (list OrderLine * float) :=
  match cart with
  | [] => Some (items, sub)
  | cart_item :: rest =>
      match find_product_by_id (product_id cart_item) with
      | Some product =>
          match float_mul_int (p_price product) (quantity cart_item) with
          | Some item_total =>
              checkout_loop rest
                (items ++ [ {| ol_product_id := p_id product;
                               ol_name := p_name product;
                               ol_price := p_price product;
                               ol_quantity := quantity cart_item;
                               ol_item_total := item_total |} ])
                (sub + item_total)%float
          | None => None
          end
      | None => checkout_loop rest items sub
      end
  end.

Definition checkout (user_id : Z) (st : state) : outcome CheckoutResponse * state :=
  match carts_db st !! user_id with
  | None => (HTTPException HTTP_400_BAD_REQUEST "Cart is empty", st)
  | Some [] => (HTTPException HTTP_400_BAD_REQUEST "Cart is empty", st)
  | Some cart =>
      match checkout_loop cart [] 0%float with
      | Some (items, sub) =>
          (Return {| co_user_id := user_id;
                     co_items := items;
                     subtotal := sub;
                     total := sub;
                     co_message := "Order placed successfully!" |},
           {| users_db := users_db st;
              next_user_id := next_user_id st;
              carts_db := <[user_id := []]> (carts_db st) |})
      | None => (OverflowError, st)
      end
  end.

(** The handlers that only read: [get_all_products], [get_product],
    [get_all_users] and [get_stats]. *)

Definition get_all_products : list Product := sample_products.

Definition get_product (pid : Z) : outcome Product :=
  match find_product_by_id pid with
  | None => HTTPException HTTP_404_NOT_FOUND "Product not found"
  | Some product => Return product
  end.

Definition get_all_users (st : state) : list UserResponse :=
  map (fun user => {| r_id := u_id user;
                      r_username := u_username user;
                      r_email := u_email user |}) (users_db st).

(** The dict returned by [get_stats]. *)
Record StatsResponse := mkStatsResponse {
  total_users : Z;
  total_products : Z;
  users_with_carts : Z;
  total_cart_items : Z
}.

(** [sum(len(cart) for cart in carts_db.values())]: a sum of integers, the
    same in whatever order the dict yields its values. *)
Definition sum_cart_lengths (carts : gmap Z (list CartItem)) : Z :=
  map_fold (fun _ cart acc => acc + Z.of_nat (length cart)) 0 carts.

Definition get_stats (st : state) : StatsResponse :=
  {| total_users := Z.of_nat (length (users_db st));
     total_products := Z.of_nat (length sample_products);
     users_with_carts := Z.of_nat (size (carts_db st));
     total_cart_items := sum_cart_lengths (carts_db st) |}.

Section Handlers.

(** [bcrypt.hashpw password salt] and [bcrypt.checkpw password hashed]; the
    latter is [None] when the library raises [ValueError]. *)
Variable bcrypt_hashpw : string -> string -> string.
Variable bcrypt_checkpw : string -> string -> option bool.

(** [hash_password], with the result of [bcrypt.gensalt()] as [salt]. *)
Definition hash_password (salt password : string) : string :=
  bcrypt_hashpw password salt.

Definition verify_password (plain_password hashed_password : string)
  : option bool :=
  bcrypt_checkpw plain_password hashed_password.

Definition register_user (salt : string) (user_data : UserRegister) (st : state)
  : outcome UserResponse * state :=
  match find_user_by_username st (reg_username user_data) with
  | Some _ => (HTTPException HTTP_400_BAD_REQUEST "Username already taken", st)
  | None =>
      match find_user_by_email st (reg_email user_data) with
      | Some _ => (HTTPException HTTP_400_BAD_REQUEST "Email already registered", st)
      | None =>
          let new_user :=
            {| u_id := next_user_id st;
               u_username := reg_username user_data;
               u_email := reg_email user_data;
               u_hashed_password := hash_password salt (reg_password user_data) |} in
          (Return {| r_id := u_id new_user;
                     r_username := u_username new_user;
                     r_email := u_email new_user |},
           {| users_db := users_db st ++ [new_user];
              next_user_id := next_user_id st + 1;
              carts_db := <[u_id new_user := []]> (carts_db st) |})
      end
  end.

Definition login_user (login_data : UserLogin) (st : state)
  : outcome LoginResponse * state :=
  match find_user_by_username_or_email st (username_or_email login_data) with
  | None => (HTTPException HTTP_401_UNAUTHORIZED "Invalid credentials", st)
  | Some user =>
      match verify_password (login_password login_data) (u_hashed_password user) with
      | None => (ValueError, st)
      | Some verified =>
          if negb verified
          then (HTTPException HTTP_401_UNAUTHORIZED "Invalid credentials", st)
          else (Return {| login_message := "Login successful";
                          login_user_view := user_view user |}, st)
      end
  end.

(** ** 6. Requests and reachable states *)

(** The requests to the five handlers, with their arguments. *)
Inductive request :=
| Register (salt : string) (user_data : UserRegister)
| Login (login_data : UserLogin)
| AddToCart (cart_item : CartItem) (user_id : Z)
| GetCart (user_id : Z)
| Checkout (user_id : Z).

(** The stores after a request has been served. *)
Definition serve (st : state) (rq : request) : state :=
  match rq with
  | Register salt user_data => snd (register_user salt user_data st)
  | Login login_data => snd (login_user login_data st)
  | AddToCart cart_item user_id => snd (add_to_cart cart_item user_id st)
  | GetCart user_id => snd (get_cart user_id st)
  | Checkout user_id => snd (checkout user_id st)
  end.

Inductive reachable : state -> Prop :=
| reachable_initial : reachable initial_state
| reachable_serve st rq : reachable st -> reachable (serve st rq).

End Handlers.

(** ** 7. The vocabulary of the specification *)

(** The error kinds of the specification, as the exceptions the handlers
    raise for them. *)
Definition DuplicateUsername {A} : outcome A :=
  HTTPException HTTP_400_BAD_REQUEST "Username already taken".
Definition DuplicateEmail {A} : outcome A :=
  HTTPException HTTP_400_BAD_REQUEST "Email already registered".
Definition InvalidCredentials {A} : outcome A :=
  HTTPException HTTP_401_UNAUTHORIZED "Invalid credentials".
Definition UserNotFound {A} : outcome A :=
  HTTPException HTTP_404_NOT_FOUND "User not found".
Definition ProductNotFound {A} : outcome A :=
  HTTPException HTTP_404_NOT_FOUND "Product not found".
Definition CartNotFound {A} : outcome A :=
  HTTPException HTTP_404_NOT_FOUND "Cart not found for this user".
Definition EmptyCart {A} : outcome A :=
  HTTPException HTTP_400_BAD_REQUEST "Cart is empty".

(** A user id is registered: the test [any(user["id"] == user_id ...)]. *)
Definition registered (st : state) (user_id : Z) : Prop :=
  In user_id (map u_id (users_db st)).

(** The cart of a user, empty when the user has no entry. *)
Definition cart_of (st : state) (user_id : Z) : list CartItem :=
  default [] (carts_db st !! user_id).

(** The stores with the cart of [user_id] replaced by [cart]. *)
Definition with_cart (st : state) (user_id : Z) (cart : list CartItem) : state :=
  {| users_db := users_db st;
     next_user_id := next_user_id st;
     carts_db := <[user_id := cart]> (carts_db st) |}.

(** The cart that [add_to_cart] stores. *)
Definition cart_after_add (cart : list CartItem) (cart_item : CartItem)
  : list CartItem :=
  match merge_into cart cart_item with
  | Some merged => merged
  | None => cart ++ [ {| product_id := product_id cart_item;
                         quantity := quantity cart_item |} ]
  end.

(** A line whose product the catalogue resolves. *)
Definition resolves (item : CartItem) : bool :=
  match find_product_by_id (product_id item) with
  | Some _ => true
  | None => false
  end.

(** The lines of a cart that the catalogue resolves, in order. *)
Definition resolvable (cart : list CartItem) : list CartItem :=
  List.filter resolves cart.

(** [price * quantity] of a line, when the product resolves and the product
    of the two numbers can be formed. *)
Definition item_total (item : CartItem) : option float :=
  match find_product_by_id (product_id item) with
  | Some product => float_mul_int (p_price product) (quantity item)
  | None => None
  end.

(** The sum of a sequence of floats, added from the left to [0.0]. *)
Definition float_sum (xs : list float) : float :=
  fold_left PrimFloat.add xs 0%float.

(** The quantity of a line is in the range of a [float]. *)
Definition in_float_range (item : CartItem) : Prop :=
  is_Some (int_to_float (quantity item)).

(** At most one line per product in every cart. *)
Definition unique_lines (st : state) : Prop :=
  forall user_id cart,
    carts_db st !! user_id = Some cart -> NoDup (map product_id cart).

(** Every cart belongs to a registered user. *)
Definition carts_owned (st : state) : Prop :=
  forall user_id cart, carts_db st !! user_id = Some cart -> registered st user_id.

(** Every line of every cart names a product of the catalogue. *)
Definition lines_in_catalog (st : state) : Prop :=
  forall user_id cart,
    carts_db st !! user_id = Some cart -> Forall (fun item => resolves item = true) cart.

(** The identifiers handed out so far are 1, 2, ..., n in registration order
    and the counter holds n + 1. *)
Definition ids_sequential (st : state) : Prop :=
  map u_id (users_db st) = map Z.of_nat (seq 1 (length (users_db st)))
  /\ next_user_id st = Z.of_nat (length (users_db st)) + 1.

(** The line of a cart an enriched line was built from. *)
Definition cart_line_source (line : CartLine) : CartItem :=
  {| product_id := cl_product_id line; quantity := cl_quantity line |}.

Definition order_line_source (line : OrderLine) : CartItem :=
  {| product_id := ol_product_id line; quantity := ol_quantity line |}.

(** ** 8. Example data *)

(** A stand-in for bcrypt, to run the handlers on examples.  As bcrypt 5
    does, the check raises [ValueError] for a password of more than 72
    bytes. *)
Definition example_hashpw (password salt : string) : string :=
  (salt ++ password)%string.

Definition example_checkpw (password hashed : string) : option bool :=
  if (72 <? String.length password)%nat
  then None
  else Some (String.eqb (substring 2 (String.length hashed - 2) hashed) password).


Definition run (rqs : list request) : state :=
  fold_left (serve example_hashpw example_checkpw) rqs initial_state.

Definition alice : UserRegister :=
  {| reg_username := "alice"; reg_email := "alice@example.com"; reg_password := "wonderland" |}.

Definition bob : UserRegister :=
  {| reg_username := "bob"; reg_email := "bob@example.com"; reg_password := "builder" |}.

(** alice is registered. *)
Definition st_alice : state := run [Register "s1" alice].

(** alice holds two iPhones and one pair of headphones. *)
Definition st_two_lines : state :=
  run [Register "s1" alice;
       AddToCart {| product_id := 1; quantity := 2 |} 1;
       AddToCart {| product_id := 4; quantity := 1 |} 1].

(** alice holds 2^1024 iPhones. *)
Definition st_huge : state :=
  run [Register "s1" alice;
       AddToCart {| product_id := 1; quantity := 2 ^ 1024 |} 1].

(** The stores after a sequence of requests has been served, from [st]. *)
Definition serve_all
    (bcrypt_hashpw : string -> string -> string)
    (bcrypt_checkpw : string -> string -> option bool)
    (st : state) (rqs : list request) : state :=
  fold_left (serve bcrypt_hashpw bcrypt_checkpw) rqs st.

(** The sum of the quantities of a sequence of lines. *)
Definition total_quantity (cart : list CartItem) : Z :=
  foldr Z.add 0 (map quantity cart).

(** The quantity of a line is out of the range of a [float]. *)
Definition out_of_float_range (item : CartItem) : Prop :=
  int_to_float (quantity item) = None.

(** A line of [get_cart] without its "image": the line [checkout] builds. *)
Definition order_line_of (line : CartLine) : OrderLine :=
  {| ol_product_id := cl_product_id line;
     ol_name := cl_name line;
     ol_price := cl_price line;
     ol_quantity := cl_quantity line;
     ol_item_total := cl_item_total line |}.

(** Every registered user has a cart entry. *)
Definition carts_for_all (st : state) : Prop :=
  forall user_id, registered st user_id -> is_Some (carts_db st !! user_id).

(** No two users share a username, and no two share an email. *)
Definition names_unique (st : state) : Prop :=
  NoDup (map u_username (users_db st)) /\ NoDup (map u_email (users_db st)).

(** mallory has an "@" in her username. *)
Definition mallory : UserRegister :=
  {| reg_username := "m@llory"; reg_email := "mallory@example.com";
     reg_password := "secret" |}.

Definition st_mallory : state := run [Register "s1" alice; Register "s3" mallory].

(** alice and bob are registered; alice holds the lines (1, 2) and (4, 1),
    bob holds the line (5, 1). *)
Definition st_two_users : state :=
  run [Register "s1" alice;
       Register "s2" bob;
       AddToCart {| product_id := 1; quantity := 2 |} 1;
       AddToCart {| product_id := 4; quantity := 1 |} 1;
       AddToCart {| product_id := 5; quantity := 1 |} 2].

(** ** 9. Lookups *)


Lemma find_product_by_id_Some (pid : Z) (product : Product) :
  find_product_by_id pid = Some product -> p_id product = pid.
Proof.
  unfold find_product_by_id. intros H.
  apply find_some in H as [_ H]. by apply Z.eqb_eq.
Qed.

Lemma find_product_by_id_catalog (pid : Z) :
  is_Some (find_product_by_id pid) <-> pid ∈ [1; 2; 3; 4; 5].
Proof.
  unfold find_product_by_id, sample_products. cbn [find p_id]. split.
  - intros [product H].
    repeat match type of H with
           | context [?k =? pid] =>
               destruct (Z.eqb_spec k pid) as [?|_]; [subst pid; set_solver|]
           end.
    discriminate H.
  - intros H. repeat (apply elem_of_cons in H as [->|H]; [by eexists|]).
    by apply elem_of_nil in H.
Qed.

Lemma registered_existsb (st : state) (user_id : Z) :
  existsb (fun user => u_id user =? user_id) (users_db st) = true <->
  registered st user_id.
Proof.
  unfold registered. rewrite existsb_exists, in_map_iff.
  split; intros (user & H1 & H2).
  - exists user. split; [by apply Z.eqb_eq|done].
  - exists user. split; [done|by apply Z.eqb_eq].
Qed.

(** ** 10. Login *)

Section Login.

Variable bcrypt_checkpw : string -> string -> option bool.


(** A login that passes both checks returns the public view of the user. *)
Lemma login_success (st : state) (login_data : UserLogin) (user : User) :
  find_user_by_username_or_email st (username_or_email login_data) = Some user ->
  verify_password bcrypt_checkpw (login_password login_data)
    (u_hashed_password user) = Some true ->
  login_user bcrypt_checkpw login_data st =
    (Return {| login_message := "Login successful";
               login_user_view := user_view user |}, st).
Proof. intros H Hv. unfold login_user. by rewrite H, Hv. Qed.

(** A login for which [bcrypt.checkpw] raises ends with that exception. *)
Lemma login_check_raises (st : state) (login_data : UserLogin) (user : User) :
  find_user_by_username_or_email st (username_or_email login_data) = Some user ->
  verify_password bcrypt_checkpw (login_password login_data)
    (u_hashed_password user) = None ->
  login_user bcrypt_checkpw login_data st = (ValueError, st).
Proof. intros H Hv. unfold login_user. by rewrite H, Hv. Qed.

Lemma login_keeps_state (st : state) (login_data : UserLogin) :
  snd (login_user bcrypt_checkpw login_data st) = st.
Proof.
  unfold login_user.
  destruct (find_user_by_username_or_email _ _); [|done].
  by destruct (verify_password _ _ _) as [[|]|].
Qed.

End Login.



(** ** 11. Registration: duplicates *)

Lemma find_user_by_username_hit (st : state) (username : string) (user : User) :
  In user (users_db st) -> u_username user = username ->
  is_Some (find_user_by_username st username).
Proof.
  intros Hin Heq. unfold find_user_by_username.
  destruct (find _ _) eqn:E; [by eexists|].
  eapply find_none in E; [|exact Hin].
  simpl in E. rewrite Heq, String.eqb_refl in E. discriminate E.
Qed.

Lemma find_user_by_email_hit (st : state) (email : string) (user : User) :
  In user (users_db st) -> u_email user = email ->
  is_Some (find_user_by_email st email).
Proof.
  intros Hin Heq. unfold find_user_by_email.
  destruct (find _ _) eqn:E; [by eexists|].
  eapply find_none in E; [|exact Hin].
  simpl in E. rewrite Heq, String.eqb_refl in E. discriminate E.
Qed.

Lemma find_user_by_username_miss (st : state) (username : string) :
  (forall user, In user (users_db st) -> u_username user <> username) ->
  find_user_by_username st username = None.
Proof.
  intros H. unfold find_user_by_username.
  destruct (find _ _) eqn:E; [|done].
  apply find_some in E as [Hin Heq]. apply String.eqb_eq in Heq.
  by destruct (H _ Hin).
Qed.

Lemma find_user_by_email_miss (st : state) (email : string) :
  (forall user, In user (users_db st) -> u_email user <> email) ->
  find_user_by_email st email = None.
Proof.
  intros H. unfold find_user_by_email.
  destruct (find _ _) eqn:E; [|done].
  apply find_some in E as [Hin Heq]. apply String.eqb_eq in Heq.
  by destruct (H _ Hin).
Qed.

Section Registration.

Variable bcrypt_hashpw : string -> string -> string.

(** The three ways [register_user] ends. *)
Lemma register_user_cases (salt : string) (user_data : UserRegister) (st : state) :
  (is_Some (find_user_by_username st (reg_username user_data))
   /\ register_user bcrypt_hashpw salt user_data st = (DuplicateUsername, st))
  \/ (find_user_by_username st (reg_username user_data) = None
      /\ is_Some (find_user_by_email st (reg_email user_data))
      /\ register_user bcrypt_hashpw salt user_data st = (DuplicateEmail, st))
  \/ (find_user_by_username st (reg_username user_data) = None
      /\ find_user_by_email st (reg_email user_data) = None
      /\ register_user bcrypt_hashpw salt user_data st =
           (Return {| r_id := next_user_id st;
                      r_username := reg_username user_data;
                      r_email := reg_email user_data |},
            {| users_db := users_db st ++
                 [ {| u_id := next_user_id st;
                      u_username := reg_username user_data;
                      u_email := reg_email user_data;
                      u_hashed_password :=
                        hash_password bcrypt_hashpw salt (reg_password user_data) |} ];
               next_user_id := next_user_id st + 1;
               carts_db := <[next_user_id st := []]> (carts_db st) |})).
Proof.
  unfold register_user.
  destruct (find_user_by_username _ _) eqn:Eu; [left; eauto|].
  destruct (find_user_by_email _ _) eqn:Ee; [right; left; eauto|].
  right; right. done.
Qed.

(** C5, as amended.  [register_user] raises [DuplicateUsername] when an
    existing user has exactly that username; it raises [DuplicateEmail]
    when an existing user has that email and no existing user has that
    username.  Either way the stores are the ones before the call: no user
    appended, the counter not advanced, no cart entry created. *)
Theorem register_duplicate_rejected
    (salt : string) (user_data : UserRegister) (st : state) :
  (forall user,
      In user (users_db st) -> u_username user = reg_username user_data ->
      register_user bcrypt_hashpw salt user_data st = (DuplicateUsername, st))
  /\ (forall user,
      In user (users_db st) -> u_email user = reg_email user_data ->
      (forall other, In other (users_db st) ->
                     u_username other <> reg_username user_data) ->
      register_user bcrypt_hashpw salt user_data st = (DuplicateEmail, st)).
Proof.
  split.
  - intros user Hin Heq.
    destruct (find_user_by_username_hit st _ user Hin Heq) as [found Hf].
    unfold register_user. by rewrite Hf.
  - intros user Hin Heq Hfree.
    destruct (find_user_by_email_hit st _ user Hin Heq) as [found Hf].
    unfold register_user.
    by rewrite (find_user_by_username_miss st _ Hfree), Hf.
Qed.

End Registration.

Lemma register_duplicate_rejected_witness :
  let same_name := {| reg_username := "alice"; reg_email := "al@example.com";
                      reg_password := "p" |} in
  let same_email := {| reg_username := "alicia"; reg_email := "alice@example.com";
                       reg_password := "p" |} in
  register_user example_hashpw "s2" same_name st_alice = (DuplicateUsername, st_alice)
  /\ register_user example_hashpw "s2" same_email st_alice = (DuplicateEmail, st_alice).
Proof.
  intros same_name same_email.
  set (stored := {| u_id := 1; u_username := "alice"; u_email := "alice@example.com";
                    u_hashed_password := "s1wonderland" |}).
  split.
  - apply (proj1 (register_duplicate_rejected example_hashpw "s2" same_name st_alice)
             stored); [by left|reflexivity].
  - apply (proj2 (register_duplicate_rejected example_hashpw "s2" same_email st_alice)
             stored); [by left|reflexivity|].
    intros other [<-|[]]. discriminate.
Defined.

(** C5, as stated, fails: alice is registered, and a second registration with
    her username and her email is rejected for the username, not with
    [DuplicateEmail], although a user with that email exists. *)
Lemma register_duplicate_email_counterexample :
  (exists user, In user (users_db st_alice) /\ u_email user = reg_email alice)
  /\ fst (register_user example_hashpw "s2" alice st_alice) = DuplicateUsername
  /\ fst (register_user example_hashpw "s2" alice st_alice) <> DuplicateEmail.
Proof.
  split; [|split].
  - eexists. split; [by left|reflexivity].
  - vm_compute. reflexivity.
  - vm_compute. discriminate.
Qed.

(** ** 12. The cart: adding a product *)

Lemma cart_item_eta (item : CartItem) :
  {| product_id := product_id item; quantity := quantity item |} = item.
Proof. by destruct item. Qed.

(** The loop ends without [break] exactly when no line has the product. *)
Lemma merge_into_None (cart : list CartItem) (cart_item : CartItem) :
  merge_into cart cart_item = None <->
  ~ In (product_id cart_item) (map product_id cart).
Proof.
  induction cart as [|item rest IH]; simpl.
  - split; [tauto|done].
  - destruct (Z.eqb_spec (product_id item) (product_id cart_item)) as [E|E].
    + split; [discriminate|]. intros H. destruct H. by left.
    + destruct (merge_into rest cart_item) eqn:M; simpl.
      * split; [discriminate|]. intros H.
        assert (Some l = None) as HN by (apply IH; tauto). discriminate HN.
      * split; [|done]. intros _ [H|H]; [done|]. by apply (proj1 IH).
Qed.

(** When the loop reaches [break], it has added the quantity to the first
    line of the product and touched nothing else. *)
Lemma merge_into_Some (cart : list CartItem) (cart_item : CartItem)
    (merged : list CartItem) :
  merge_into cart cart_item = Some merged ->
  exists before item after,
    cart = before ++ item :: after
    /\ product_id item = product_id cart_item
    /\ ~ In (product_id cart_item) (map product_id before)
    /\ merged = before ++
         {| product_id := product_id cart_item;
            quantity := quantity item + quantity cart_item |} :: after.
Proof.
  revert merged. induction cart as [|item rest IH]; simpl; intros merged H.
  - discriminate H.
  - destruct (Z.eqb_spec (product_id item) (product_id cart_item)) as [E|E].
    + inversion H; subst merged. exists [], item, rest.
      rewrite E. simpl. tauto.
    + destruct (merge_into rest cart_item) as [merged'|] eqn:M; [|discriminate H].
      simpl in H. inversion H; subst merged.
      destruct (IH merged' eq_refl) as (before & it & after & -> & Hp & Hn & ->).
      exists (item :: before), it, after. simpl.
      repeat split; [done|tauto].
Qed.

Lemma merge_into_products (cart : list CartItem) (cart_item : CartItem)
    (merged : list CartItem) :
  merge_into cart cart_item = Some merged ->
  map product_id merged = map product_id cart.
Proof.
  intros H. apply merge_into_Some in H as (before & it & after & -> & Hp & _ & ->).
  rewrite !map_app. simpl. by rewrite Hp.
Qed.

Lemma add_to_cart_cases (cart_item : CartItem) (user_id : Z) (st : state) :
  (~ registered st user_id
   /\ add_to_cart cart_item user_id st = (UserNotFound, st))
  \/ (registered st user_id
      /\ find_product_by_id (product_id cart_item) = None
      /\ add_to_cart cart_item user_id st = (ProductNotFound, st))
  \/ (registered st user_id
      /\ is_Some (find_product_by_id (product_id cart_item))
      /\ add_to_cart cart_item user_id st =
           (Return {| add_message := "Product added to cart";
                      add_cart_item := cart_item;
                      add_user_id := user_id |},
            with_cart st user_id
              (cart_after_add (cart_of st user_id) cart_item))).
Proof.
  unfold add_to_cart.
  destruct (existsb _ _) eqn:E; simpl.
  - apply registered_existsb in E.
    destruct (find_product_by_id _) eqn:F; [right; right|right; left]; eauto.
  - left. split; [|done]. intros H. apply registered_existsb in H. congruence.
Qed.

(** C3. For a registered user and a product of the catalogue, [add_to_cart]
    succeeds and stores a new cart for the user: when the cart has a line for
    the product, the cart with the requested quantity added to the quantity
    of (the first) such line, of the same length, whatever the numbers;
    otherwise the cart with the line (product, quantity) appended at its end.
    In particular, for a user whose cart has no line for product 1, adding
    product 1 with quantity 2 and then product 1 with quantity 3 leaves the
    cart extended by the single line (1, 5). *)
Theorem add_to_cart_merges_or_appends (st : state) (user_id : Z) :
  registered st user_id ->
  (forall cart_item,
      is_Some (find_product_by_id (product_id cart_item)) ->
      exists cart',
        add_to_cart cart_item user_id st =
          (Return {| add_message := "Product added to cart";
                     add_cart_item := cart_item;
                     add_user_id := user_id |},
           with_cart st user_id cart')
        /\ (In (product_id cart_item) (map product_id (cart_of st user_id)) ->
            length cart' = length (cart_of st user_id)
            /\ exists before item after,
                cart_of st user_id = before ++ item :: after
                /\ product_id item = product_id cart_item
                /\ ~ In (product_id cart_item) (map product_id before)
                /\ cart' = before ++
                     {| product_id := product_id cart_item;
                        quantity := quantity item + quantity cart_item |} :: after)
        /\ (~ In (product_id cart_item) (map product_id (cart_of st user_id)) ->
            cart' = cart_of st user_id ++ [cart_item]))
  /\ (~ In 1 (map product_id (cart_of st user_id)) ->
      let st1 := snd (add_to_cart {| product_id := 1; quantity := 2 |} user_id st) in
      let st2 := snd (add_to_cart {| product_id := 1; quantity := 3 |} user_id st1) in
      cart_of st2 user_id = cart_of st user_id ++ [ {| product_id := 1; quantity := 5 |} ]).
Proof.
  intros Hreg.
  assert (forall cart_item,
             is_Some (find_product_by_id (product_id cart_item)) ->
             add_to_cart cart_item user_id st =
               (Return {| add_message := "Product added to cart";
                          add_cart_item := cart_item;
                          add_user_id := user_id |},
                with_cart st user_id
                  (cart_after_add (cart_of st user_id) cart_item))) as Hadd.
  { intros cart_item [product Hp].
    destruct (add_to_cart_cases cart_item user_id st)
      as [[Hn _]|[(_ & Hn & _)|(_ & _ & H)]]; [done|congruence|done]. }
  split.
  - intros cart_item Hprod.
    exists (cart_after_add (cart_of st user_id) cart_item).
    split; [by apply Hadd|]. unfold cart_after_add. split.
    + intros Hin. destruct (merge_into _ _) as [merged|] eqn:M.
      * split.
        { rewrite <- (length_map product_id merged),
            <- (length_map product_id (cart_of st user_id)).
          by rewrite (merge_into_products _ _ _ M). }
        by apply merge_into_Some.
      * by apply merge_into_None in M.
    + intros Hnot. apply merge_into_None in Hnot. rewrite Hnot.
      by rewrite cart_item_eta.
  - intros Hnot st1 st2.
    assert (st1 = with_cart st user_id
                    (cart_of st user_id ++ [ {| product_id := 1; quantity := 2 |} ]))
      as E1.
    { unfold st1. rewrite Hadd by (by apply find_product_by_id_catalog; set_solver).
      simpl. unfold cart_after_add.
      by rewrite (proj2 (merge_into_None _ {| product_id := 1; quantity := 2 |}) Hnot). }
    assert (cart_of st1 user_id
            = cart_of st user_id ++ [ {| product_id := 1; quantity := 2 |} ]) as C1.
    { rewrite E1. unfold cart_of, with_cart. simpl. by rewrite lookup_insert_eq. }
    unfold st2, add_to_cart.
    assert (existsb (fun user => u_id user =? user_id) (users_db st1) = true) as ->.
    { apply registered_existsb. by rewrite E1. }
    simpl. fold (cart_of st1 user_id). rewrite C1.
    unfold cart_of at 1. simpl. rewrite lookup_insert_eq. simpl.
    assert (merge_into (cart_of st user_id ++ [ {| product_id := 1; quantity := 2 |} ])
              {| product_id := 1; quantity := 3 |}
            = Some (cart_of st user_id ++ [ {| product_id := 1; quantity := 5 |} ])) as ->.
    { clear -Hnot. induction (cart_of st user_id) as [|item rest IH]; [done|].
      simpl in *. destruct (Z.eqb_spec (product_id item) 1) as [E|E]; [tauto|].
      rewrite IH by tauto. done. }
    done.
Qed.

Lemma add_to_cart_merges_or_appends_witness :
  registered st_alice 1
  /\ is_Some (find_product_by_id 1)
  /\ ~ In 1 (map product_id (cart_of st_alice 1))
  /\ cart_of (snd (add_to_cart {| product_id := 1; quantity := 3 |} 1
                (snd (add_to_cart {| product_id := 1; quantity := 2 |} 1 st_alice)))) 1
     = [ {| product_id := 1; quantity := 5 |} ]
  /\ (exists cart',
        add_to_cart {| product_id := 4; quantity := 1 |} 1 st_alice =
          (Return {| add_message := "Product added to cart";
                     add_cart_item := {| product_id := 4; quantity := 1 |};
                     add_user_id := 1 |},
           with_cart st_alice 1 cart')
        /\ cart' = [ {| product_id := 4; quantity := 1 |} ]).
Proof.
  assert (registered st_alice 1) as Hreg by (by left).
  assert (is_Some (find_product_by_id 1)) as H1 by (by eexists).
  assert (~ In 1 (map product_id (cart_of st_alice 1))) as Hnot by (intros []).
  destruct (add_to_cart_merges_or_appends st_alice 1 Hreg) as [Hgen Hpart].
  split; [exact Hreg|]. split; [exact H1|]. split; [exact Hnot|]. split.
  - exact (Hpart Hnot).
  - destruct (Hgen {| product_id := 4; quantity := 1 |}) as (cart' & Hadd & _ & Happ).
    { by eexists. }
    exists cart'. split; [exact Hadd|]. apply Happ. intros [].
Defined.

(** ** 13. The cart: reading it *)

Lemma resolves_Some (item : CartItem) :
  resolves item = true <-> is_Some (find_product_by_id (product_id item)).
Proof.
  unfold resolves. destruct (find_product_by_id _).
  - split; [by eexists|done].
  - split; [discriminate|]. by intros [? ?].
Qed.

Lemma resolvable_all (cart : list CartItem) :
  Forall (fun item => resolves item = true) cart -> resolvable cart = cart.
Proof.
  unfold resolvable. induction 1 as [|item rest H _ IH]; simpl; [done|].
  by rewrite H, IH.
Qed.

(** What the loop of [get_cart] appends to its two accumulators. *)
Lemma get_cart_loop_Some (cart : list CartItem) :
  forall items count items' count',
    get_cart_loop cart items count = Some (items', count') ->
    exists lines,
      items' = items ++ lines
      /\ map cart_line_source lines = resolvable cart
      /\ Forall (fun line =>
                   item_total (cart_line_source line) = Some (cl_item_total line)) lines
      /\ count' = count + foldr Z.add 0 (map quantity (resolvable cart)).
Proof.
  induction cart as [|item rest IH]; simpl; intros items count items' count' H.
  - inversion H; subst. exists []. rewrite app_nil_r. repeat split; [done|lia].
  - unfold resolvable, resolves in *. simpl.
    destruct (find_product_by_id (product_id item)) as [product|] eqn:F.
    + destruct (float_mul_int _ _) as [t|] eqn:M; [|discriminate H].
      apply IH in H as (lines & -> & Hsrc & Htot & ->).
      eexists (_ :: lines). rewrite <- app_assoc. simpl.
      split; [done|]. split; [|split].
      * rewrite Hsrc. f_equal. unfold cart_line_source. simpl.
        rewrite (find_product_by_id_Some _ _ F). apply cart_item_eta.
      * constructor; [|done]. unfold item_total, cart_line_source. simpl.
        by rewrite (find_product_by_id_Some _ _ F), F.
      * lia.
    + by apply IH in H.
Qed.

(** The loop of [get_cart] ends normally when every quantity it multiplies
    is in the range of a [float]. *)
Lemma get_cart_loop_total (cart : list CartItem) :
  Forall in_float_range (resolvable cart) ->
  forall items count, is_Some (get_cart_loop cart items count).
Proof.
  induction cart as [|item rest IH]; simpl; intros H items count; [by eexists|].
  unfold resolvable, resolves in *. simpl in H.
  destruct (find_product_by_id (product_id item)) as [product|] eqn:F.
  - inversion H as [|? ? [y Hy] Hrest]; subst.
    unfold float_mul_int. rewrite Hy. by apply IH.
  - by apply IH.
Qed.

Lemma get_cart_keeps_state (user_id : Z) (st : state) :
  snd (get_cart user_id st) = st.
Proof.
  unfold get_cart. destruct (carts_db st !! user_id); [|done].
  by destruct (get_cart_loop _ _ _) as [[? ?]|].
Qed.

(** C8. [get_cart] raises [CartNotFound] exactly when the user has no cart
    entry, and never changes the stores.  A cart entry that holds no line is
    not that case: [get_cart] then returns the cart with zero items; so it
    does right after a successful registration, for the new user. *)
Theorem get_cart_not_found_iff (user_id : Z) (st : state) :
  (fst (get_cart user_id st) = CartNotFound <-> carts_db st !! user_id = None)
  /\ snd (get_cart user_id st) = st
  /\ (carts_db st !! user_id = Some [] ->
      get_cart user_id st =
        (Return {| cart_user_id := user_id; cart_items := []; total_items := 0 |}, st))
  /\ (forall bcrypt_hashpw salt user_data r st',
        register_user bcrypt_hashpw salt user_data st = (Return r, st') ->
        carts_db st' !! r_id r = Some []
        /\ get_cart (r_id r) st' =
             (Return {| cart_user_id := r_id r; cart_items := []; total_items := 0 |},
              st')).
Proof.
  split; [|split; [|split]].
  - unfold get_cart. destruct (carts_db st !! user_id) as [cart|]; [|done].
    split; [|discriminate].
    by destruct (get_cart_loop _ _ _) as [[? ?]|].
  - apply get_cart_keeps_state.
  - intros H. unfold get_cart. by rewrite H.
  - intros bcrypt_hashpw salt user_data r st' H.
    destruct (register_user_cases bcrypt_hashpw salt user_data st)
      as [[_ E]|[(_ & _ & E)|(_ & _ & E)]]; rewrite E in H; try discriminate H.
    inversion H; subst r st'. simpl.
    assert (carts_db
              {| users_db := users_db st ++
                   [ {| u_id := next_user_id st;
                        u_username := reg_username user_data;
                        u_email := reg_email user_data;
                        u_hashed_password :=
                          hash_password bcrypt_hashpw salt (reg_password user_data) |} ];
                 next_user_id := next_user_id st + 1;
                 carts_db := <[next_user_id st := []]> (carts_db st) |}
              !! next_user_id st = Some []) as L
      by (simpl; apply lookup_insert_eq).
    split; [exact L|]. unfold get_cart. by rewrite L.
Qed.

Lemma get_cart_not_found_iff_witness :
  carts_db initial_state !! 1 = None
  /\ fst (get_cart 1 initial_state) = CartNotFound
  /\ register_user example_hashpw "s1" alice initial_state
       = (Return {| r_id := 1; r_username := "alice"; r_email := "alice@example.com" |},
          st_alice)
  /\ carts_db st_alice !! 1 = Some []
  /\ get_cart 1 st_alice =
       (Return {| cart_user_id := 1; cart_items := []; total_items := 0 |}, st_alice).
Proof.
  destruct (get_cart_not_found_iff 1 initial_state) as (Hiff & _ & _ & Hreg).
  assert (register_user example_hashpw "s1" alice initial_state
          = (Return {| r_id := 1; r_username := "alice";
                       r_email := "alice@example.com" |}, st_alice)) as R
    by (vm_compute; reflexivity).
  split; [reflexivity|]. split; [apply Hiff; reflexivity|]. split; [exact R|].
  exact (Hreg example_hashpw "s1" alice _ _ R).
Defined.

(** ** 14. Checkout *)

(** What the loop of [checkout] appends to its list and adds to its sum. *)
Lemma checkout_loop_Some (cart : list CartItem) :
  forall items sub items' sub',
    checkout_loop cart items sub = Some (items', sub') ->
    exists lines totals,
      items' = items ++ lines
      /\ map order_line_source lines = resolvable cart
      /\ map ol_item_total lines = totals
      /\ Forall2 (fun item t => item_total item = Some t) (resolvable cart) totals
      /\ sub' = fold_left PrimFloat.add totals sub.
Proof.
  induction cart as [|item rest IH]; simpl; intros items sub items' sub' H.
  - inversion H; subst. exists [], []. rewrite app_nil_r.
    repeat split; first [done|constructor].
  - unfold resolvable, resolves in *. simpl.
    destruct (find_product_by_id (product_id item)) as [product|] eqn:F.
    + destruct (float_mul_int _ _) as [t|] eqn:M; [|discriminate H].
      apply IH in H as (lines & totals & -> & Hsrc & Hmap & Htot & ->).
      eexists (_ :: lines), (t :: totals). rewrite <- app_assoc. simpl.
      split; [done|]. split; [|split; [|split]].
      * rewrite Hsrc. f_equal. unfold order_line_source. simpl.
        rewrite (find_product_by_id_Some _ _ F). apply cart_item_eta.
      * by rewrite Hmap.
      * constructor; [|done]. unfold item_total. by rewrite F.
      * done.
    + by apply IH in H.
Qed.

(** The loop of [checkout] ends normally when every quantity it multiplies
    is in the range of a [float]. *)
Lemma checkout_loop_total (cart : list CartItem) :
  Forall in_float_range (resolvable cart) ->
  forall items sub, is_Some (checkout_loop cart items sub).
Proof.
  induction cart as [|item rest IH]; simpl; intros H items sub; [by eexists|].
  unfold resolvable, resolves in *. simpl in H.
  destruct (find_product_by_id (product_id item)) as [product|] eqn:F.
  - inversion H as [|? ? [y Hy] Hrest]; subst.
    unfold float_mul_int. rewrite Hy. by apply IH.
  - by apply IH.
Qed.

(** The three ways [checkout] ends. *)
Lemma checkout_cases (user_id : Z) (st : state) :
  ((carts_db st !! user_id = None \/ carts_db st !! user_id = Some [])
   /\ checkout user_id st = (EmptyCart, st))
  \/ (exists cart,
        carts_db st !! user_id = Some cart /\ cart <> []
        /\ checkout_loop cart [] 0%float = None
        /\ checkout user_id st = (OverflowError, st))
  \/ (exists cart items sub,
        carts_db st !! user_id = Some cart /\ cart <> []
        /\ checkout_loop cart [] 0%float = Some (items, sub)
        /\ checkout user_id st =
             (Return {| co_user_id := user_id;
                        co_items := items;
                        subtotal := sub;
                        total := sub;
                        co_message := "Order placed successfully!" |},
              with_cart st user_id [])).
Proof.
  unfold checkout.
  destruct (carts_db st !! user_id) as [[|item rest]|] eqn:L.
  - left. split; [by right|done].
  - right. destruct (checkout_loop _ _ _) as [[items sub]|] eqn:C.
    + right. exists (item :: rest), items, sub. done.
    + left. exists (item :: rest). done.
  - left. split; [by left|done].
Qed.

(** C2. [checkout] raises [EmptyCart] exactly when the user has no cart entry
    or an entry without lines; it then leaves the stores as they were; and
    after a checkout that succeeded, a second one for the same user raises
    [EmptyCart]. *)
Theorem checkout_empty_cart_iff (user_id : Z) (st : state) :
  (fst (checkout user_id st) = EmptyCart <->
   carts_db st !! user_id = None \/ carts_db st !! user_id = Some [])
  /\ (fst (checkout user_id st) = EmptyCart -> snd (checkout user_id st) = st)
  /\ (forall r st',
        checkout user_id st = (Return r, st') ->
        checkout user_id st' = (EmptyCart, st')).
Proof.
  destruct (checkout_cases user_id st)
    as [[Hempty E]|[(cart & L & Hne & _ & E)|(cart & items & sub & L & Hne & _ & E)]];
    rewrite E; simpl.
  - split; [done|]. split; [done|]. intros r st' H. discriminate H.
  - split; [|split].
    + split; [discriminate|].
      intros [H|H]; rewrite L in H; [discriminate H|]. by inversion H.
    + discriminate.
    + intros r st' H. discriminate H.
  - split; [|split].
    + split; [discriminate|].
      intros [H|H]; rewrite L in H; [discriminate H|]. by inversion H.
    + discriminate.
    + intros r st' H. inversion H; subst st'.
      unfold checkout, with_cart. simpl. by rewrite lookup_insert_eq.
Qed.

Lemma checkout_empty_cart_iff_witness :
  carts_db initial_state !! 1 = None
  /\ checkout 1 initial_state = (EmptyCart, initial_state)
  /\ carts_db st_alice !! 1 = Some []
  /\ checkout 1 st_alice = (EmptyCart, st_alice)
  /\ (exists r, fst (checkout 1 st_two_lines) = Return r)
  /\ fst (checkout 1 (snd (checkout 1 st_two_lines))) = EmptyCart.
Proof.
  destruct (checkout_empty_cart_iff 1 initial_state) as (I1 & I2 & _).
  destruct (checkout_empty_cart_iff 1 st_alice) as (A1 & A2 & _).
  destruct (checkout_empty_cart_iff 1 st_two_lines) as (_ & _ & T3).
  assert (carts_db initial_state !! 1 = None) as L0 by reflexivity.
  assert (carts_db st_alice !! 1 = Some []) as L1 by reflexivity.
  split; [exact L0|]. split.
  { rewrite (surjective_pairing (checkout 1 initial_state)).
    rewrite (I2 (proj2 I1 (or_introl L0))), (proj2 I1 (or_introl L0)). reflexivity. }
  split; [exact L1|]. split.
  { rewrite (surjective_pairing (checkout 1 st_alice)).
    rewrite (A2 (proj2 A1 (or_intror L1))), (proj2 A1 (or_intror L1)). reflexivity. }
  split.
  { eexists. vm_compute. reflexivity. }
  rewrite (T3 _ _ (surjective_pairing (checkout 1 st_two_lines))). reflexivity.
Defined.

(** The range of [int_to_float]: up to the largest float, 2^1024 - 2^971,
    exactly; up to half a unit in the last place beyond it, rounded; from
    there on [OverflowError]. *)
Example int_to_float_range :
  int_to_float 2 = Some 2%float
  /\ int_to_float (-3) = Some (-3)%float
  /\ int_to_float (2 ^ 1024 - 2 ^ 971) = Some 0x1.fffffffffffffp+1023%float
  /\ int_to_float (2 ^ 1024 - 2 ^ 970 - 1) = Some 0x1.fffffffffffffp+1023%float
  /\ int_to_float (2 ^ 1024 - 2 ^ 970) = None
  /\ int_to_float (- (2 ^ 1024)) = None.
Proof. repeat split; vm_compute; reflexivity. Qed.

(** The loop of [checkout] raises [OverflowError] when a quantity it
    multiplies is out of the range of a [float]. *)
Lemma checkout_loop_overflow (cart : list CartItem) :
  Exists (fun item => int_to_float (quantity item) = None) (resolvable cart) ->
  forall items sub, checkout_loop cart items sub = None.
Proof.
  induction cart as [|item rest IH]; simpl; intros H items sub.
  - by apply Exists_nil in H.
  - unfold resolvable, resolves in *. simpl in H.
    destruct (find_product_by_id (product_id item)) as [product|] eqn:F.
    + unfold float_mul_int.
      destruct (int_to_float (quantity item)) as [y|] eqn:Y; [|done].
      apply Exists_cons in H as [H|H]; [congruence|]. by apply IH.
    + by apply IH.
Qed.

(** C1, as amended.  For every user whose cart entry exists, holds at least
    one line, and has the quantity of every line the catalogue resolves in
    the range of a [float], [checkout] succeeds; [subtotal] is the sum, from
    the left, of [price * quantity] over the lines the catalogue resolves,
    [total] is [subtotal], and the only change of the stores is that the
    user's cart entry now holds the empty list. *)
Theorem checkout_totals_and_clears (user_id : Z) (st : state) (cart : list CartItem) :
  carts_db st !! user_id = Some cart ->
  cart <> [] ->
  Forall in_float_range (resolvable cart) ->
  exists r totals,
    checkout user_id st = (Return r, with_cart st user_id [])
    /\ Forall2 (fun item t => item_total item = Some t) (resolvable cart) totals
    /\ subtotal r = float_sum totals
    /\ total r = subtotal r
    /\ carts_db (with_cart st user_id []) !! user_id = Some []
    /\ (forall other, other <> user_id ->
          carts_db (with_cart st user_id []) !! other = carts_db st !! other)
    /\ users_db (with_cart st user_id []) = users_db st
    /\ next_user_id (with_cart st user_id []) = next_user_id st.
Proof.
  intros L Hne Hrange.
  destruct (checkout_cases user_id st)
    as [[[H|H] _]|[(cart' & L' & _ & C & _)|(cart' & items & sub & L' & _ & C & E)]].
  - congruence.
  - rewrite L in H. by inversion H.
  - rewrite L in L'. inversion L'; subst cart'.
    destruct (checkout_loop_total cart Hrange [] 0%float) as [? HS]. congruence.
  - rewrite L in L'. inversion L'; subst cart'.
    apply checkout_loop_Some in C as (lines & totals & _ & _ & _ & Htot & ->).
    eexists _, totals. split; [exact E|]. simpl.
    split; [exact Htot|]. split; [done|]. split; [done|].
    split; [apply lookup_insert_eq|]. split; [|done].
    intros other Hother. by apply lookup_insert_ne.
Qed.

Lemma checkout_totals_and_clears_witness :
  carts_db st_two_lines !! 1
    = Some [ {| product_id := 1; quantity := 2 |}; {| product_id := 4; quantity := 1 |} ]
  /\ exists r totals,
      checkout 1 st_two_lines = (Return r, with_cart st_two_lines 1 [])
      /\ Forall2 (fun item t => item_total item = Some t)
           [ {| product_id := 1; quantity := 2 |}; {| product_id := 4; quantity := 1 |} ]
           totals
      /\ subtotal r = float_sum totals
      /\ total r = subtotal r
      /\ carts_db (with_cart st_two_lines 1 []) !! 1 = Some [].
Proof.
  assert (carts_db st_two_lines !! 1
          = Some [ {| product_id := 1; quantity := 2 |};
                   {| product_id := 4; quantity := 1 |} ]) as L by reflexivity.
  split; [exact L|].
  destruct (checkout_totals_and_clears 1 st_two_lines _ L) as (r & totals & H).
  - discriminate.
  - repeat constructor; by eexists.
  - exists r, totals. tauto.
Defined.

(** Every state that [run] produces is reachable. *)
Lemma run_reachable (rqs : list request) :
  reachable example_hashpw example_checkpw (run rqs).
Proof.
  unfold run. induction rqs as [|rq rqs IH] using rev_ind; simpl.
  - constructor.
  - rewrite fold_left_app. simpl. by constructor.
Qed.

(** C1, as stated, fails: after alice has registered and added 2^1024 units
    of product 1, her cart entry exists and holds one line, and [checkout]
    does not succeed: the product of the price and the quantity raises
    [OverflowError], and the cart is not cleared. *)
Lemma checkout_overflow_counterexample :
  reachable example_hashpw example_checkpw st_huge
  /\ carts_db st_huge !! 1 = Some [ {| product_id := 1; quantity := 2 ^ 1024 |} ]
  /\ checkout 1 st_huge = (OverflowError, st_huge)
  /\ ~ (exists r st', checkout 1 st_huge = (Return r, st')).
Proof.
  assert (checkout 1 st_huge = (OverflowError, st_huge)) as E
    by (vm_compute; reflexivity).
  split; [apply run_reachable|]. split; [vm_compute; reflexivity|].
  split; [exact E|]. intros (r & st' & H). rewrite E in H. discriminate H.
Qed.

(** C9, as amended.  For a user whose cart holds exactly the lines
    (product 1, quantity 2) and (product 4, quantity 1), [checkout] returns
    [subtotal] and [total] both equal to the float 0.0 + 999.99 * 2 +
    349.99 * 1, which is 0x1.25bf0a3d70a3ep+11 (printed 2349.9700000000003),
    the float next above the one the literal 2349.97 denotes; afterwards the
    user's cart entry exists and is empty. *)
Theorem checkout_example_total (user_id : Z) (st : state) :
  carts_db st !! user_id
    = Some [ {| product_id := 1; quantity := 2 |}; {| product_id := 4; quantity := 1 |} ] ->
  exists r,
    checkout user_id st = (Return r, with_cart st user_id [])
    /\ subtotal r = 0x1.25bf0a3d70a3ep+11%float
    /\ total r = 0x1.25bf0a3d70a3ep+11%float
    /\ subtotal r = next_up 2349.97%float
    /\ map order_line_source (co_items r)
       = [ {| product_id := 1; quantity := 2 |}; {| product_id := 4; quantity := 1 |} ]
    /\ carts_db (with_cart st user_id []) !! user_id = Some [].
Proof.
  intros L. unfold checkout. rewrite L.
  assert (exists items,
             checkout_loop
               [ {| product_id := 1; quantity := 2 |};
                 {| product_id := 4; quantity := 1 |} ] [] 0%float
             = Some (items, 0x1.25bf0a3d70a3ep+11%float)
             /\ map order_line_source items
                = [ {| product_id := 1; quantity := 2 |};
                    {| product_id := 4; quantity := 1 |} ]) as (items & -> & Hsrc).
  { eexists. split; vm_compute; reflexivity. }
  eexists. split; [reflexivity|]. simpl.
  split; [done|]. split; [done|]. split; [vm_compute; reflexivity|].
  split; [exact Hsrc|]. apply lookup_insert_eq.
Qed.

Lemma checkout_example_total_witness :
  carts_db st_two_lines !! 1
    = Some [ {| product_id := 1; quantity := 2 |}; {| product_id := 4; quantity := 1 |} ]
  /\ exists r,
      checkout 1 st_two_lines = (Return r, with_cart st_two_lines 1 [])
      /\ subtotal r = 0x1.25bf0a3d70a3ep+11%float
      /\ total r = 0x1.25bf0a3d70a3ep+11%float.
Proof.
  assert (carts_db st_two_lines !! 1
          = Some [ {| product_id := 1; quantity := 2 |};
                   {| product_id := 4; quantity := 1 |} ]) as L by reflexivity.
  split; [exact L|].
  destruct (checkout_example_total 1 st_two_lines L) as (r & H).
  exists r. tauto.
Defined.

(** C9, as stated, fails: for alice holding the lines (1, 2) and (4, 1) the
    [subtotal] that [checkout] returns is not the float 2349.97, neither as
    a value nor under the comparison [==] of floats. *)
Lemma checkout_example_counterexample :
  carts_db st_two_lines !! 1
    = Some [ {| product_id := 1; quantity := 2 |}; {| product_id := 4; quantity := 1 |} ]
  /\ exists r,
      fst (checkout 1 st_two_lines) = Return r
      /\ subtotal r <> 2349.97%float
      /\ total r <> 2349.97%float
      /\ PrimFloat.eqb (subtotal r) 2349.97%float = false.
Proof.
  split; [reflexivity|]. eexists. split; [vm_compute; reflexivity|].
  simpl. split; [|split].
  - intros H. apply (f_equal Prim2SF) in H. vm_compute in H. discriminate H.
  - intros H. apply (f_equal Prim2SF) in H. vm_compute in H. discriminate H.
  - vm_compute. reflexivity.
Qed.

(** ** 15. Invariants of the stores *)

Lemma cart_after_add_products (cart : list CartItem) (cart_item : CartItem) :
  map product_id (cart_after_add cart cart_item) = map product_id cart
  \/ (~ In (product_id cart_item) (map product_id cart)
      /\ map product_id (cart_after_add cart cart_item)
         = map product_id cart ++ [product_id cart_item]).
Proof.
  unfold cart_after_add. destruct (merge_into _ _) as [merged|] eqn:M.
  - left. by apply (merge_into_products _ cart_item).
  - right. split; [by apply merge_into_None|]. by rewrite map_app.
Qed.

Lemma cart_after_add_unique (cart : list CartItem) (cart_item : CartItem) :
  NoDup (map product_id cart) ->
  NoDup (map product_id (cart_after_add cart cart_item)).
Proof.
  intros H. destruct (cart_after_add_products cart cart_item) as [->|[Hn ->]]; [done|].
  apply NoDup_app. split; [done|]. split.
  - intros pid Hin Hin'. apply list_elem_of_singleton in Hin'. subst pid.
    by apply Hn, list_elem_of_In.
  - apply NoDup_singleton.
Qed.

Lemma cart_after_add_in_catalog (cart : list CartItem) (cart_item : CartItem) :
  resolves cart_item = true ->
  Forall (fun item => resolves item = true) cart ->
  Forall (fun item => resolves item = true) (cart_after_add cart cart_item).
Proof.
  intros Hr H. unfold cart_after_add.
  destruct (merge_into _ _) as [merged|] eqn:M.
  - apply merge_into_Some in M as (before & it & after & -> & Hp & _ & ->).
    apply Forall_app in H as [Hb Ha]. apply Forall_app. split; [done|].
    inversion Ha; subst. constructor; [|done].
    by rewrite <- Hr.
  - apply Forall_app. split; [done|]. constructor; [|constructor].
    by rewrite <- Hr.
Qed.

Lemma cart_of_unique (st : state) (user_id : Z) :
  unique_lines st -> NoDup (map product_id (cart_of st user_id)).
Proof.
  intros H. unfold cart_of.
  destruct (carts_db st !! user_id) as [cart|] eqn:L; simpl.
  - by apply (H user_id).
  - constructor.
Qed.

Lemma cart_of_in_catalog (st : state) (user_id : Z) :
  lines_in_catalog st ->
  Forall (fun item => resolves item = true) (cart_of st user_id).
Proof.
  intros H. unfold cart_of.
  destruct (carts_db st !! user_id) as [cart|] eqn:L; simpl.
  - by apply (H user_id).
  - constructor.
Qed.

Lemma seq_snoc_Z (n : nat) :
  map Z.of_nat (seq 1 (S n)) = map Z.of_nat (seq 1 n) ++ [Z.of_nat n + 1].
Proof.
  rewrite seq_S, map_app. simpl. do 2 f_equal. lia.
Qed.

Section Reachability.

Variable bcrypt_hashpw : string -> string -> string.
Variable bcrypt_checkpw : string -> string -> option bool.

(** What serving a request does to the stores: nothing, or one of the three
    writes of [register_user], [add_to_cart] and [checkout]. *)
Lemma serve_cases (st : state) (rq : request) :
  serve bcrypt_hashpw bcrypt_checkpw st rq = st
  \/ (exists new_user,
        u_id new_user = next_user_id st
        /\ serve bcrypt_hashpw bcrypt_checkpw st rq =
             {| users_db := users_db st ++ [new_user];
                next_user_id := next_user_id st + 1;
                carts_db := <[next_user_id st := []]> (carts_db st) |})
  \/ (exists cart_item user_id,
        registered st user_id
        /\ resolves cart_item = true
        /\ serve bcrypt_hashpw bcrypt_checkpw st rq =
             with_cart st user_id (cart_after_add (cart_of st user_id) cart_item))
  \/ (exists user_id cart,
        carts_db st !! user_id = Some cart
        /\ serve bcrypt_hashpw bcrypt_checkpw st rq = with_cart st user_id []).
Proof.
  destruct rq as [salt user_data|login_data|cart_item user_id|user_id|user_id]; simpl.
  - destruct (register_user_cases bcrypt_hashpw salt user_data st)
      as [[_ E]|[(_ & _ & E)|(_ & _ & E)]]; rewrite E; simpl; [by left|by left|].
    right; left. eexists. split; [|reflexivity]. reflexivity.
  - left. apply login_keeps_state.
  - destruct (add_to_cart_cases cart_item user_id st)
      as [[_ E]|[(_ & _ & E)|(Hreg & Hres & E)]]; rewrite E; simpl;
      [by left|by left|].
    right; right; left. exists cart_item, user_id.
    split; [done|]. split; [by apply resolves_Some|done].
  - left. apply get_cart_keeps_state.
  - destruct (checkout_cases user_id st)
      as [[_ E]|[(cart & _ & _ & _ & E)|(cart & items & sub & L & _ & _ & E)]];
      rewrite E; simpl; [by left|by left|].
    right; right; right. by exists user_id, cart.
Qed.

Lemma serve_unique_lines (st : state) (rq : request) :
  unique_lines st -> unique_lines (serve bcrypt_hashpw bcrypt_checkpw st rq).
Proof.
  intros H.
  destruct (serve_cases st rq)
    as [->|[(new_user & _ & ->)|[(ci & uid & _ & _ & ->)|(uid & cart & _ & ->)]]];
    [done|..]; intros user_id cart'; simpl; intros L;
    apply lookup_insert_Some in L as [[_ <-]|[_ L]];
    try (by apply (H user_id)); try constructor.
  by apply cart_after_add_unique, cart_of_unique.
Qed.

Lemma serve_carts_owned (st : state) (rq : request) :
  carts_owned st -> carts_owned (serve bcrypt_hashpw bcrypt_checkpw st rq).
Proof.
  intros H.
  destruct (serve_cases st rq)
    as [->|[(new_user & Hid & ->)|[(ci & uid & Hreg & _ & ->)|(uid & cart & Hc & ->)]]];
    [done|..]; intros user_id cart'; unfold registered; simpl; intros L;
    apply lookup_insert_Some in L as [[<- _]|[_ L]];
    try (by apply (H user_id cart')); try done.
  - rewrite map_app, in_app_iff. right. simpl. by left.
  - rewrite map_app, in_app_iff. left. by apply (H user_id cart').
  - by apply (H uid cart).
Qed.

Lemma serve_lines_in_catalog (st : state) (rq : request) :
  lines_in_catalog st -> lines_in_catalog (serve bcrypt_hashpw bcrypt_checkpw st rq).
Proof.
  intros H.
  destruct (serve_cases st rq)
    as [->|[(new_user & _ & ->)|[(ci & uid & _ & Hres & ->)|(uid & cart & _ & ->)]]];
    [done|..]; intros user_id cart'; simpl; intros L;
    apply lookup_insert_Some in L as [[_ <-]|[_ L]];
    try (by apply (H user_id)); try constructor.
  by apply cart_after_add_in_catalog, cart_of_in_catalog.
Qed.

Lemma serve_ids_sequential (st : state) (rq : request) :
  ids_sequential st -> ids_sequential (serve bcrypt_hashpw bcrypt_checkpw st rq).
Proof.
  intros [Hids Hnext].
  destruct (serve_cases st rq)
    as [->|[(new_user & Hid & ->)|[(ci & uid & _ & _ & ->)|(uid & cart & _ & ->)]]];
    [done| |done|done].
  unfold ids_sequential. simpl.
  rewrite length_app, map_app, Hids. simpl.
  replace (length (users_db st) + 1)%nat with (S (length (users_db st))) by lia.
  rewrite seq_snoc_Z, Hid, Hnext. split; [done|lia].
Qed.

(** The four invariants hold in every reachable state. *)
Lemma reachable_invariants (st : state) :
  reachable bcrypt_hashpw bcrypt_checkpw st ->
  unique_lines st /\ carts_owned st /\ lines_in_catalog st /\ ids_sequential st.
Proof.
  induction 1 as [|st rq _ (IH1 & IH2 & IH3 & IH4)].
  - repeat split; try reflexivity;
      intros user_id cart L; simpl in L; by apply lookup_empty_Some in L.
  - split; [by apply serve_unique_lines|].
    split; [by apply serve_carts_owned|].
    split; [by apply serve_lines_in_catalog|by apply serve_ids_sequential].
Qed.

End Reachability.

Lemma ids_sequential_bound (st : state) (user : User) :
  ids_sequential st -> In user (users_db st) ->
  1 <= u_id user < next_user_id st.
Proof.
  intros [Hids Hnext] Hin.
  apply (in_map u_id) in Hin. rewrite Hids in Hin.
  apply in_map_iff in Hin as (k & <- & Hk). apply in_seq in Hk. lia.
Qed.

Lemma ids_sequential_last (st : state) (prev : User) :
  ids_sequential st -> last (users_db st) = Some prev ->
  next_user_id st = u_id prev + 1.
Proof.
  intros [Hids Hnext] Hlast.
  apply last_Some in Hlast as [earlier E]. rewrite E in Hids, Hnext.
  rewrite length_app in Hids, Hnext. simpl in Hids, Hnext.
  replace (length earlier + 1)%nat with (S (length earlier)) in Hids, Hnext by lia.
  rewrite map_app, seq_snoc_Z in Hids. simpl in Hids.
  apply app_inj_tail in Hids as [_ Hprev]. lia.
Qed.

(** ** 16. The claims on reachable states *)

(** C4. In every state reachable from the initial one by requests to
    [register_user], [login_user], [add_to_cart], [get_cart] and [checkout],
    no cart holds two lines with the same product id; and serving any request
    in a state with that property yields a state with that property. *)
Theorem one_line_per_product
    (bcrypt_hashpw : string -> string -> string)
    (bcrypt_checkpw : string -> string -> option bool) (st : state) :
  (reachable bcrypt_hashpw bcrypt_checkpw st ->
   forall user_id cart,
     carts_db st !! user_id = Some cart -> NoDup (map product_id cart))
  /\ (forall rq,
        unique_lines st -> unique_lines (serve bcrypt_hashpw bcrypt_checkpw st rq)).
Proof.
  split.
  - intros H. by apply reachable_invariants in H as (H & _).
  - intros rq. apply serve_unique_lines.
Qed.

Lemma one_line_per_product_witness :
  let again := AddToCart {| product_id := 1; quantity := 3 |} 1 in
  reachable example_hashpw example_checkpw st_two_lines
  /\ NoDup (map product_id
              [ {| product_id := 1; quantity := 2 |}; {| product_id := 4; quantity := 1 |} ])
  /\ unique_lines st_two_lines
  /\ unique_lines (serve example_hashpw example_checkpw st_two_lines again).
Proof.
  intros again.
  destruct (one_line_per_product example_hashpw example_checkpw st_two_lines)
    as [Hreach Hstep].
  assert (reachable example_hashpw example_checkpw st_two_lines) as R.
  { exact (reachable_serve _ _ _ _ (reachable_serve _ _ _ _
             (reachable_serve _ _ _ _ (reachable_initial _ _)))). }
  split; [exact R|]. split; [apply (Hreach R 1); reflexivity|].
  split; [exact (Hreach R)|]. apply Hstep. exact (Hreach R).
Defined.

(** C6. In a reachable state [register_user] succeeds whenever neither the
    username nor the email is taken, and every success returns the public
    view (id, username, email) of the new user, whose id is the counter: the
    number of users registered before plus one, so 1 for the first user, the
    id of the user registered last plus one afterwards, and larger than the
    id of every user registered before.  The new user is appended, the
    counter advances by one and the cart entry of the new id is the empty
    list. *)
Theorem register_assigns_next_id
    (bcrypt_hashpw : string -> string -> string)
    (bcrypt_checkpw : string -> string -> option bool)
    (salt : string) (user_data : UserRegister) (st : state) :
  reachable bcrypt_hashpw bcrypt_checkpw st ->
  (find_user_by_username st (reg_username user_data) = None ->
   find_user_by_email st (reg_email user_data) = None ->
   exists r st', register_user bcrypt_hashpw salt user_data st = (Return r, st'))
  /\ (forall r st',
        register_user bcrypt_hashpw salt user_data st = (Return r, st') ->
        r = {| r_id := Z.of_nat (length (users_db st)) + 1;
               r_username := reg_username user_data;
               r_email := reg_email user_data |}
        /\ (users_db st = [] -> r_id r = 1)
        /\ (forall prev, last (users_db st) = Some prev -> r_id r = u_id prev + 1)
        /\ (forall user, In user (users_db st) -> u_id user < r_id r)
        /\ (exists new_user,
              users_db st' = users_db st ++ [new_user] /\ user_view new_user = r)
        /\ next_user_id st' = r_id r + 1
        /\ carts_db st' !! r_id r = Some []).
Proof.
  intros Hreach.
  apply reachable_invariants in Hreach as (_ & _ & _ & Hseq).
  destruct (register_user_cases bcrypt_hashpw salt user_data st)
    as [[[u Hu] E]|[(_ & [u Hu] & E)|(_ & _ & E)]]; rewrite E.
  - split; [congruence|]. intros r st' H. discriminate H.
  - split; [congruence|]. intros r st' H. discriminate H.
  - split; [eauto|]. intros r st' H. inversion H; subst r st'. simpl.
    pose proof Hseq as [_ Hnext].
    split; [by rewrite Hnext|].
    split; [intros Hnil; rewrite Hnext, Hnil; reflexivity|].
    split; [intros prev; by apply ids_sequential_last|].
    split; [intros user Hin; by apply ids_sequential_bound|].
    split; [by eexists|]. split; [done|]. apply lookup_insert_eq.
Qed.

Lemma register_assigns_next_id_witness :
  reachable example_hashpw example_checkpw initial_state
  /\ reachable example_hashpw example_checkpw st_alice
  /\ register_user example_hashpw "s1" alice initial_state
     = (Return {| r_id := 1; r_username := "alice"; r_email := "alice@example.com" |},
        st_alice)
  /\ (exists st',
        register_user example_hashpw "s2" bob st_alice
        = (Return {| r_id := 2; r_username := "bob"; r_email := "bob@example.com" |}, st')
        /\ next_user_id st' = 3
        /\ carts_db st' !! 2 = Some []).
Proof.
  assert (reachable example_hashpw example_checkpw initial_state) as R0
    by exact (reachable_initial _ _).
  assert (reachable example_hashpw example_checkpw st_alice) as R1
    by exact (reachable_serve _ _ _ (Register "s1" alice) R0).
  split; [exact R0|]. split; [exact R1|]. split; [vm_compute; reflexivity|].
  destruct (register_assigns_next_id example_hashpw example_checkpw "s2" bob st_alice R1)
    as [Hsucc Hres].
  destruct Hsucc as (r & st' & E); [reflexivity|reflexivity|].
  destruct (Hres r st' E) as (Hr & _ & _ & _ & _ & Hnext & Hcart).
  exists st'. subst r. split; [exact E|]. split; [exact Hnext|exact Hcart].
Defined.

(** C10. In every reachable state every key of [carts_db] is the id of a
    registered user and every line of every cart names a product of the
    catalogue; so the loops of [get_cart] and [checkout] never skip a line:
    the items either of them returns are, in order, one per line of the cart,
    with the product id and the quantity of that line; and [get_cart] does
    return them as soon as the quantities are in the range of a [float]. *)
Theorem carts_reference_users_and_products
    (bcrypt_hashpw : string -> string -> string)
    (bcrypt_checkpw : string -> string -> option bool)
    (st : state) (user_id : Z) (cart : list CartItem) :
  reachable bcrypt_hashpw bcrypt_checkpw st ->
  carts_db st !! user_id = Some cart ->
  In user_id (map u_id (users_db st))
  /\ (forall item, In item cart -> is_Some (find_product_by_id (product_id item)))
  /\ resolvable cart = cart
  /\ (forall r st',
        get_cart user_id st = (Return r, st') ->
        map cart_line_source (cart_items r) = cart)
  /\ (forall r st',
        checkout user_id st = (Return r, st') ->
        map order_line_source (co_items r) = cart)
  /\ (Forall in_float_range cart ->
      exists r,
        get_cart user_id st = (Return r, st)
        /\ map cart_line_source (cart_items r) = cart).
Proof.
  intros Hreach L.
  apply reachable_invariants in Hreach as (_ & Hown & Hcat & _).
  specialize (Hown _ _ L). specialize (Hcat _ _ L).
  pose proof (resolvable_all cart Hcat) as Hall.
  split; [exact Hown|]. split.
  { intros item Hin. apply resolves_Some.
    by apply (proj1 (List.Forall_forall _ _) Hcat). }
  split; [exact Hall|].
  assert (forall r st',
             get_cart user_id st = (Return r, st') ->
             map cart_line_source (cart_items r) = cart) as Hget.
  { intros r st'. unfold get_cart. rewrite L.
    destruct (get_cart_loop cart [] 0) as [[items count]|] eqn:G; [|discriminate].
    intros H. inversion H; subst r st'. simpl.
    apply get_cart_loop_Some in G as (lines & -> & Hsrc & _). simpl.
    by rewrite Hsrc. }
  split; [exact Hget|]. split.
  - intros r st' H.
    destruct (checkout_cases user_id st)
      as [[_ E]|[(c & _ & _ & _ & E)|(c & items & sub & L' & _ & C & E)]];
      rewrite E in H; try discriminate H.
    inversion H; subst r st'. simpl.
    rewrite L in L'. inversion L'; subst c.
    apply checkout_loop_Some in C as (lines & totals & -> & Hsrc & _). simpl.
    by rewrite Hsrc.
  - intros Hrange. rewrite <- Hall in Hrange.
    destruct (get_cart_loop_total cart Hrange [] 0) as [[items count] G].
    assert (get_cart user_id st =
              (Return {| cart_user_id := user_id; cart_items := items;
                         total_items := count |}, st)) as E.
    { unfold get_cart. by rewrite L, G. }
    eexists. split; [exact E|]. by apply (Hget _ _ E).
Qed.

Lemma carts_reference_users_and_products_witness :
  let cart := [ {| product_id := 1; quantity := 2 |};
                {| product_id := 4; quantity := 1 |} ] in
  reachable example_hashpw example_checkpw st_two_lines
  /\ carts_db st_two_lines !! 1 = Some cart
  /\ In 1 (map u_id (users_db st_two_lines))
  /\ resolvable cart = cart
  /\ exists r,
      get_cart 1 st_two_lines = (Return r, st_two_lines)
      /\ map cart_line_source (cart_items r) = cart.
Proof.
  intros cart.
  assert (reachable example_hashpw example_checkpw st_two_lines) as R.
  { exact (reachable_serve _ _ _ _ (reachable_serve _ _ _ _
             (reachable_serve _ _ _ _ (reachable_initial _ _)))). }
  assert (carts_db st_two_lines !! 1 = Some cart) as L by reflexivity.
  destruct (carts_reference_users_and_products
              example_hashpw example_checkpw st_two_lines 1 cart R L)
    as (Hown & _ & Hall & _ & _ & Hget).
  split; [exact R|]. split; [exact L|]. split; [exact Hown|]. split; [exact Hall|].
  apply Hget. repeat constructor; by eexists.
Defined.

(** ** 17. The catalogue *)

(** X1. [get_product] returns, for the id of each product of
    [get_all_products], that very product; whatever it returns has the id
    asked for and is in [get_all_products]; and it raises [ProductNotFound]
    (404) exactly for the ids outside 1..5. *)
Theorem get_product_lookup (pid : Z) :
  (forall product, In product get_all_products ->
                   get_product (p_id product) = Return product)
  /\ (forall product, get_product pid = Return product ->
                      p_id product = pid /\ In product get_all_products)
  /\ (get_product pid = ProductNotFound <-> pid ∉ [1; 2; 3; 4; 5]).
Proof.
  split; [|split].
  - intros product Hin. unfold get_all_products, sample_products in Hin.
    simpl in Hin.
    repeat (destruct Hin as [<-|Hin]; [vm_compute; reflexivity|]).
    destruct Hin.
  - intros product. unfold get_product.
    destruct (find_product_by_id pid) as [found|] eqn:F; [|discriminate].
    intros H. inversion H; subst found. split.
    + by apply find_product_by_id_Some.
    + unfold find_product_by_id in F. by apply find_some in F as [F _].
  - rewrite <- find_product_by_id_catalog. unfold get_product.
    destruct (find_product_by_id pid) as [found|].
    + split; [discriminate|]. intros H. destruct H. by eexists.
    + split; [|done]. intros _ [? H]. discriminate H.
Qed.

Lemma get_product_lookup_witness :
  (exists product, get_product 4 = Return product
                   /\ p_id product = 4 /\ In product get_all_products)
  /\ get_product 6 = ProductNotFound
  /\ get_product 0 = ProductNotFound.
Proof.
  split; [|split].
  - destruct (get_product 4) as [product| | |] eqn:G; try (vm_compute in G; discriminate G).
    exists product. split; [reflexivity|].
    exact (proj1 (proj2 (get_product_lookup 4)) product G).
  - apply (proj2 (proj2 (get_product_lookup 6))). intros H.
    repeat (apply elem_of_cons in H as [H|H]; [discriminate H|]).
    by apply elem_of_nil in H.
  - apply (proj2 (proj2 (get_product_lookup 0))). intros H.
    repeat (apply elem_of_cons in H as [H|H]; [discriminate H|]).
    by apply elem_of_nil in H.
Defined.

(** ** 18. More on [add_to_cart] *)

(** X2. [add_to_cart] raises [UserNotFound] exactly when the user id is not
    registered, whatever the product; [ProductNotFound] exactly when the user
    is registered and the product id is outside 1..5; it succeeds otherwise,
    whatever the quantity, and never raises [OverflowError].  When it raises,
    the stores are unchanged; when it succeeds, it changes neither the users,
    nor the counter, nor the cart of any other user. *)
Theorem add_to_cart_rejections (cart_item : CartItem) (user_id : Z) (st : state) :
  (fst (add_to_cart cart_item user_id st) = UserNotFound <-> ~ registered st user_id)
  /\ (fst (add_to_cart cart_item user_id st) = ProductNotFound <->
      registered st user_id /\ product_id cart_item ∉ [1; 2; 3; 4; 5])
  /\ ((exists r, fst (add_to_cart cart_item user_id st) = Return r) <->
      registered st user_id /\ product_id cart_item ∈ [1; 2; 3; 4; 5])
  /\ ((forall r, fst (add_to_cart cart_item user_id st) <> Return r) ->
      snd (add_to_cart cart_item user_id st) = st)
  /\ users_db (snd (add_to_cart cart_item user_id st)) = users_db st
  /\ next_user_id (snd (add_to_cart cart_item user_id st)) = next_user_id st
  /\ (forall other, other <> user_id ->
        carts_db (snd (add_to_cart cart_item user_id st)) !! other
        = carts_db st !! other).
Proof.
  pose proof (find_product_by_id_catalog (product_id cart_item)) as Hcat.
  destruct (add_to_cart_cases cart_item user_id st)
    as [[Hn E]|[(Hreg & Hp & E)|(Hreg & Hp & E)]]; rewrite E; simpl.
  - split; [done|]. split; [split; [discriminate|tauto]|].
    split; [split; [intros [r H]; discriminate H|tauto]|]. done.
  - assert (product_id cart_item ∉ [1; 2; 3; 4; 5]) as Hout.
    { intros H. apply Hcat in H as [? H]. congruence. }
    split; [split; [discriminate|tauto]|]. split; [done|].
    split; [split; [intros [r H]; discriminate H|tauto]|]. done.
  - split; [split; [discriminate|tauto]|].
    split; [split; [discriminate|]|].
    { intros [_ H]. destruct H. by apply Hcat. }
    split; [split; [intros _; split; [done|by apply Hcat]|by eexists]|].
    split; [intros H; by destruct (H _ eq_refl)|].
    split; [done|]. split; [done|].
    intros other Hother. by apply lookup_insert_ne.
Qed.

Lemma add_to_cart_rejections_witness :
  fst (add_to_cart {| product_id := 9; quantity := 1 |} 7 st_alice) = UserNotFound
  /\ fst (add_to_cart {| product_id := 9; quantity := 1 |} 1 st_alice) = ProductNotFound
  /\ snd (add_to_cart {| product_id := 9; quantity := 1 |} 1 st_alice) = st_alice
  /\ (exists r, fst (add_to_cart {| product_id := 2; quantity := -4 |} 1 st_alice)
                = Return r).
Proof.
  assert (registered st_alice 1) as Hreg by (by left).
  assert (~ registered st_alice 7) as Hnot.
  { intros [H|[]]. discriminate H. }
  destruct (add_to_cart_rejections {| product_id := 9; quantity := 1 |} 7 st_alice)
    as (U & _).
  destruct (add_to_cart_rejections {| product_id := 9; quantity := 1 |} 1 st_alice)
    as (_ & P & _ & S & _).
  destruct (add_to_cart_rejections {| product_id := 2; quantity := -4 |} 1 st_alice)
    as (_ & _ & R & _).
  assert (fst (add_to_cart {| product_id := 9; quantity := 1 |} 1 st_alice)
          = ProductNotFound) as EP.
  { apply P. split; [exact Hreg|]. simpl. intros H.
    repeat (apply elem_of_cons in H as [H|H]; [discriminate H|]).
    by apply elem_of_nil in H. }
  split; [apply U; exact Hnot|]. split; [exact EP|]. split.
  - apply S. intros r H. rewrite EP in H. discriminate H.
  - apply R. split; [exact Hreg|]. simpl.
    apply list_elem_of_In. simpl. tauto.
Defined.

Lemma merge_into_snoc (cart : list CartItem) (pid q1 q2 : Z) :
  ~ In pid (map product_id cart) ->
  merge_into (cart ++ [ {| product_id := pid; quantity := q1 |} ])
    {| product_id := pid; quantity := q2 |}
  = Some (cart ++ [ {| product_id := pid; quantity := q1 + q2 |} ]).
Proof.
  induction cart as [|item rest IH]; simpl; intros Hnot.
  - by rewrite Z.eqb_refl.
  - destruct (Z.eqb_spec (product_id item) pid) as [E|E]; [tauto|].
    rewrite IH by tauto. done.
Qed.

(** Two additions of one product amount to one addition of the sum. *)
Lemma cart_after_add_twice (cart : list CartItem) (pid q1 q2 : Z) :
  cart_after_add
    (cart_after_add cart {| product_id := pid; quantity := q1 |})
    {| product_id := pid; quantity := q2 |}
  = cart_after_add cart {| product_id := pid; quantity := q1 + q2 |}.
Proof.
  unfold cart_after_add at 2 3.
  destruct (merge_into cart {| product_id := pid; quantity := q1 |})
    as [merged|] eqn:M1.
  - apply merge_into_Some in M1 as (before & it & after & -> & Hp & Hn & ->).
    simpl in *.
    assert (forall q,
               merge_into (before ++ it :: after) {| product_id := pid; quantity := q |}
               = Some (before ++ {| product_id := pid; quantity := quantity it + q |}
                         :: after)) as Hm.
    { intros q. clear -Hp Hn. induction before as [|b before IH]; simpl in *.
      - by rewrite Hp, Z.eqb_refl.
      - destruct (Z.eqb_spec (product_id b) pid) as [E|E]; [tauto|].
        rewrite IH by tauto. done. }
    rewrite Hm. unfold cart_after_add.
    assert (merge_into
              (before ++ {| product_id := pid; quantity := quantity it + q1 |} :: after)
              {| product_id := pid; quantity := q2 |}
            = Some (before ++
                      {| product_id := pid; quantity := quantity it + q1 + q2 |}
                      :: after)) as ->.
    { clear -Hn. induction before as [|b before IH]; simpl in *.
      - by rewrite Z.eqb_refl.
      - destruct (Z.eqb_spec (product_id b) pid) as [E|E]; [tauto|].
        rewrite IH by tauto. done. }
    by rewrite Z.add_assoc.
  - pose proof M1 as Hnot. apply merge_into_None in Hnot. simpl in Hnot.
    assert (merge_into cart {| product_id := pid; quantity := q1 + q2 |} = None) as ->
      by (by apply merge_into_None).
    unfold cart_after_add. simpl. by rewrite merge_into_snoc.
Qed.

(** X3. For a registered user and a product of the catalogue, adding a
    quantity and then another of the same product leaves the stores exactly
    as one addition of the sum of the two does, for all integers; the
    quantities are not checked, so on a cart without the product an addition
    of q followed by one of -q leaves a line of quantity 0 in the cart. *)
Theorem add_to_cart_additive (st : state) (user_id pid q1 q2 : Z) :
  registered st user_id ->
  is_Some (find_product_by_id pid) ->
  snd (add_to_cart {| product_id := pid; quantity := q2 |} user_id
         (snd (add_to_cart {| product_id := pid; quantity := q1 |} user_id st)))
  = snd (add_to_cart {| product_id := pid; quantity := q1 + q2 |} user_id st)
  /\ (~ In pid (map product_id (cart_of st user_id)) ->
      q2 = - q1 ->
      cart_of
        (snd (add_to_cart {| product_id := pid; quantity := q2 |} user_id
                (snd (add_to_cart {| product_id := pid; quantity := q1 |} user_id st))))
        user_id
      = cart_of st user_id ++ [ {| product_id := pid; quantity := 0 |} ]).
Proof.
  intros Hreg Hprod.
  assert (forall s q, registered s user_id ->
             snd (add_to_cart {| product_id := pid; quantity := q |} user_id s)
             = with_cart s user_id
                 (cart_after_add (cart_of s user_id)
                    {| product_id := pid; quantity := q |})) as Hadd.
  { intros s q Hs.
    destruct (add_to_cart_cases {| product_id := pid; quantity := q |} user_id s)
      as [[Hn _]|[(_ & Hn & _)|(_ & _ & ->)]]; [done| |done].
    destruct Hprod as [? Hprod]. simpl in Hn. congruence. }
  assert (snd (add_to_cart {| product_id := pid; quantity := q2 |} user_id
                 (snd (add_to_cart {| product_id := pid; quantity := q1 |} user_id st)))
          = snd (add_to_cart {| product_id := pid; quantity := q1 + q2 |} user_id st))
    as Heq.
  { rewrite (Hadd st q1 Hreg), (Hadd st (q1 + q2) Hreg).
    rewrite Hadd by done.
    unfold with_cart, cart_of. simpl.
    rewrite lookup_insert_eq, insert_insert_eq. simpl.
    by rewrite cart_after_add_twice. }
  split; [exact Heq|].
  intros Hnot ->. rewrite Heq, (Hadd st _ Hreg).
  unfold cart_of at 1, with_cart. simpl. rewrite lookup_insert_eq. simpl.
  unfold cart_after_add.
  assert (merge_into (cart_of st user_id)
            {| product_id := pid; quantity := q1 + - q1 |} = None) as ->
    by (by apply merge_into_None).
  simpl. by rewrite Z.add_opp_diag_r.
Qed.

Lemma add_to_cart_additive_witness :
  registered st_two_lines 1
  /\ is_Some (find_product_by_id 4)
  /\ snd (add_to_cart {| product_id := 4; quantity := -8 |} 1
            (snd (add_to_cart {| product_id := 4; quantity := 5 |} 1 st_two_lines)))
     = snd (add_to_cart {| product_id := 4; quantity := 5 + -8 |} 1 st_two_lines)
  /\ cart_of
       (snd (add_to_cart {| product_id := 3; quantity := -6 |} 1
               (snd (add_to_cart {| product_id := 3; quantity := 6 |} 1 st_two_lines))))
       1
     = [ {| product_id := 1; quantity := 2 |}; {| product_id := 4; quantity := 1 |};
         {| product_id := 3; quantity := 0 |} ].
Proof.
  assert (registered st_two_lines 1) as Hreg by (by left).
  assert (is_Some (find_product_by_id 4)) as H4 by (by eexists).
  assert (is_Some (find_product_by_id 3)) as H3 by (by eexists).
  split; [exact Hreg|]. split; [exact H4|]. split.
  - exact (proj1 (add_to_cart_additive st_two_lines 1 4 5 (-8) Hreg H4)).
  - apply (proj2 (add_to_cart_additive st_two_lines 1 3 6 (-6) Hreg H3)).
    + simpl. intros [H|[H|[]]]; discriminate H.
    + reflexivity.
Defined.

(** ** 19. [get_cart] and [checkout] together *)

Lemma total_quantity_app (cart cart' : list CartItem) :
  total_quantity (cart ++ cart') = total_quantity cart + total_quantity cart'.
Proof.
  unfold total_quantity. induction cart as [|item rest IH]; simpl; lia.
Qed.

Lemma resolvable_app (cart cart' : list CartItem) :
  resolvable (cart ++ cart') = resolvable cart ++ resolvable cart'.
Proof. unfold resolvable. apply List.filter_app. Qed.

Lemma resolvable_cons (item : CartItem) (rest : list CartItem) :
  resolves item = true -> resolvable (item :: rest) = item :: resolvable rest.
Proof. intros H. unfold resolvable. simpl. by rewrite H. Qed.

Lemma resolves_same_product (item item' : CartItem) :
  product_id item = product_id item' -> resolves item = resolves item'.
Proof. unfold resolves. by intros ->. Qed.

(** The quantities that [get_cart] counts grow by the quantity added. *)
Lemma cart_after_add_total_quantity (cart : list CartItem) (cart_item : CartItem) :
  resolves cart_item = true ->
  total_quantity (resolvable (cart_after_add cart cart_item))
  = total_quantity (resolvable cart) + quantity cart_item.
Proof.
  intros Hr. unfold cart_after_add.
  destruct (merge_into cart cart_item) as [merged|] eqn:M.
  - apply merge_into_Some in M as (before & it & after & -> & Hp & _ & ->).
    rewrite !resolvable_app, !total_quantity_app.
    rewrite !resolvable_cons.
    + unfold total_quantity. simpl. lia.
    + by rewrite (resolves_same_product it cart_item).
    + by rewrite <- Hr.
  - rewrite resolvable_app, total_quantity_app, resolvable_cons.
    + unfold total_quantity, resolvable. simpl. lia.
    + by rewrite <- Hr.
Qed.

Lemma get_cart_total_items (user_id : Z) (st : state) (r : CartResponse) :
  fst (get_cart user_id st) = Return r ->
  total_items r = total_quantity (resolvable (cart_of st user_id))
  /\ map cart_line_source (cart_items r) = resolvable (cart_of st user_id).
Proof.
  unfold get_cart, cart_of.
  destruct (carts_db st !! user_id) as [cart|]; simpl; [|discriminate].
  destruct (get_cart_loop cart [] 0) as [[items count]|] eqn:G; [|discriminate].
  simpl. intros H. inversion H; subst r. simpl.
  apply get_cart_loop_Some in G as (lines & -> & Hsrc & _ & ->).
  split; [unfold total_quantity; lia|done].
Qed.

(** X4. After a successful [add_to_cart], the [total_items] that [get_cart]
    returns for the user is the sum of the quantities of the lines of the
    cart before, plus the quantity added: [total_items] of the cart before,
    when [get_cart] returned it, plus that quantity. *)
Theorem get_cart_counts_added_quantity
    (cart_item : CartItem) (user_id : Z) (st : state) (r' : CartResponse) :
  registered st user_id ->
  is_Some (find_product_by_id (product_id cart_item)) ->
  fst (get_cart user_id (snd (add_to_cart cart_item user_id st))) = Return r' ->
  total_items r'
  = total_quantity (resolvable (cart_of st user_id)) + quantity cart_item
  /\ (forall r, fst (get_cart user_id st) = Return r ->
                total_items r' = total_items r + quantity cart_item).
Proof.
  intros Hreg Hprod Hget.
  destruct (add_to_cart_cases cart_item user_id st)
    as [[Hn _]|[(_ & Hn & _)|(_ & _ & E)]];
    [done|destruct Hprod as [? Hprod]; congruence|].
  rewrite E in Hget. simpl in Hget.
  apply get_cart_total_items in Hget as [Htot _].
  assert (total_items r'
          = total_quantity (resolvable (cart_of st user_id)) + quantity cart_item) as H.
  { rewrite Htot. unfold cart_of at 1, with_cart. simpl.
    rewrite lookup_insert_eq. simpl.
    apply cart_after_add_total_quantity. by apply resolves_Some. }
  split; [exact H|]. intros r Hr.
  apply get_cart_total_items in Hr as [-> _]. exact H.
Qed.

Lemma get_cart_counts_added_quantity_witness :
  registered st_two_lines 1
  /\ is_Some (find_product_by_id 4)
  /\ (exists r, fst (get_cart 1 st_two_lines) = Return r /\ total_items r = 3)
  /\ (exists r',
        fst (get_cart 1
               (snd (add_to_cart {| product_id := 4; quantity := 7 |} 1 st_two_lines)))
        = Return r'
        /\ total_items r' = 3 + 7).
Proof.
  assert (registered st_two_lines 1) as Hreg by (by left).
  assert (is_Some (find_product_by_id 4)) as H4 by (by eexists).
  split; [exact Hreg|]. split; [exact H4|].
  destruct (fst (get_cart 1 st_two_lines)) as [r| | |] eqn:G;
    try (vm_compute in G; discriminate G).
  destruct (fst (get_cart 1
                   (snd (add_to_cart {| product_id := 4; quantity := 7 |} 1
                           st_two_lines)))) as [r'| | |] eqn:G';
    try (vm_compute in G'; discriminate G').
  assert (total_items r = 3) as T.
  { vm_compute in G. inversion G. reflexivity. }
  split; [exists r; split; [reflexivity|exact T]|].
  exists r'. split; [reflexivity|].
  rewrite <- T.
  exact (proj2 (get_cart_counts_added_quantity
                  {| product_id := 4; quantity := 7 |} 1 st_two_lines r' Hreg H4 G')
           r G).
Defined.

(** The two loops run in step: one ends normally exactly when the other
    does, with the same lines (but for the image) and, as subtotal, the sum
    of the item totals. *)
Lemma loops_agree (cart : list CartItem) :
  forall items count sub,
    match get_cart_loop cart items count,
          checkout_loop cart (map order_line_of items) sub with
    | Some (items', _), Some (order, sub') =>
        order = map order_line_of items'
        /\ exists lines,
            items' = items ++ lines
            /\ sub' = fold_left PrimFloat.add (map cl_item_total lines) sub
    | None, None => True
    | _, _ => False
    end.
Proof.
  induction cart as [|item rest IH]; simpl; intros items count sub.
  - split; [done|]. exists []. by rewrite app_nil_r.
  - destruct (find_product_by_id (product_id item)) as [product|]; [|apply IH].
    destruct (float_mul_int (p_price product) (quantity item)) as [t|]; [|done].
    set (line := {| cl_product_id := p_id product; cl_name := p_name product;
                    cl_price := p_price product; cl_quantity := quantity item;
                    cl_item_total := t; cl_image := p_image product |}).
    specialize (IH (items ++ [line]) (count + quantity item) (sub + t)%float).
    rewrite map_app in IH. simpl in IH.
    destruct (get_cart_loop rest _ _) as [[items' count']|];
      destruct (checkout_loop rest _ _) as [[order sub']|]; try done.
    destruct IH as (-> & lines & -> & ->).
    split; [done|]. exists (line :: lines). by rewrite <- app_assoc.
Qed.

(** X5. [checkout] succeeds exactly when the cart entry holds a line and
    [get_cart] succeeds; the items it returns are then the items of
    [get_cart] without their image, its subtotal is the sum, from the left,
    of their item totals, and [get_cart] on the stores it leaves returns the
    cart with no items and a count of 0. *)
Theorem checkout_agrees_with_get_cart (user_id : Z) (st : state) :
  ((exists ro, fst (checkout user_id st) = Return ro) <->
   (exists rc, fst (get_cart user_id st) = Return rc) /\ cart_of st user_id <> [])
  /\ (forall ro rc,
        fst (checkout user_id st) = Return ro ->
        fst (get_cart user_id st) = Return rc ->
        co_items ro = map order_line_of (cart_items rc)
        /\ subtotal ro = float_sum (map cl_item_total (cart_items rc))
        /\ get_cart user_id (snd (checkout user_id st))
           = (Return {| cart_user_id := user_id; cart_items := []; total_items := 0 |},
              snd (checkout user_id st))).
Proof.
  unfold checkout, get_cart, cart_of.
  destruct (carts_db st !! user_id) as [cart|] eqn:L; simpl.
  2:{ split; [|intros ro rc H; discriminate H].
      split; [intros [ro H]; discriminate H|].
      intros [[rc H] _]. discriminate H. }
  pose proof (loops_agree cart [] 0 0%float) as Hag. simpl in Hag.
  destruct cart as [|item rest].
  { split; [|intros ro rc H; discriminate H].
    split; [intros [ro H]; discriminate H|]. by intros [_ H]. }
  destruct (get_cart_loop (item :: rest) [] 0) as [[items count]|];
    destruct (checkout_loop (item :: rest) [] 0%float) as [[order sub]|];
    try done; simpl.
  - destruct Hag as (-> & lines & Hl & ->). simpl in Hl. subst lines.
    split; [split; [intros _; split; [by eexists|done]|intros _; by eexists]|].
    intros ro rc Ho Hc. inversion Ho; subst ro. inversion Hc; subst rc. simpl.
    split; [done|]. split; [done|]. by rewrite lookup_insert_eq.
  - split; [|intros ro rc H; discriminate H].
    split; [intros [ro H]; discriminate H|].
    intros [[rc H] _]. discriminate H.
Qed.

Lemma checkout_agrees_with_get_cart_witness :
  exists ro rc,
    fst (checkout 1 st_two_lines) = Return ro
    /\ fst (get_cart 1 st_two_lines) = Return rc
    /\ co_items ro = map order_line_of (cart_items rc)
    /\ subtotal ro = float_sum (map cl_item_total (cart_items rc))
    /\ fst (get_cart 1 (snd (checkout 1 st_two_lines)))
       = Return {| cart_user_id := 1; cart_items := []; total_items := 0 |}.
Proof.
  destruct (fst (checkout 1 st_two_lines)) as [ro| | |] eqn:C;
    try (vm_compute in C; discriminate C).
  destruct (fst (get_cart 1 st_two_lines)) as [rc| | |] eqn:G;
    try (vm_compute in G; discriminate G).
  destruct (proj2 (checkout_agrees_with_get_cart 1 st_two_lines) ro rc C G)
    as (H1 & H2 & H3).
  exists ro, rc. split; [reflexivity|]. split; [reflexivity|].
  split; [exact H1|]. split; [exact H2|]. by rewrite H3.
Defined.

(** ** 20. Quantities out of the range of a float *)

Lemma float_range_dec (cart : list CartItem) :
  Forall in_float_range cart \/ Exists out_of_float_range cart.
Proof.
  induction cart as [|item rest [IH|IH]].
  - left. constructor.
  - unfold in_float_range, out_of_float_range.
    destruct (int_to_float (quantity item)) as [y|] eqn:Y.
    + left. constructor; [by eexists|done].
    + right. by left.
  - right. by right.
Qed.

Lemma float_range_exclusive (cart : list CartItem) :
  Forall in_float_range cart -> Exists out_of_float_range cart -> False.
Proof.
  intros HF HE. apply Exists_exists in HE as (item & Hin & Hout).
  apply list_elem_of_In in Hin.
  apply (proj1 (List.Forall_forall _ _) HF) in Hin as [y Hy].
  unfold out_of_float_range in Hout. congruence.
Qed.

Lemma get_cart_loop_overflow (cart : list CartItem) :
  Exists out_of_float_range (resolvable cart) ->
  forall items count, get_cart_loop cart items count = None.
Proof.
  induction cart as [|item rest IH]; simpl; intros H items count.
  - by apply Exists_nil in H.
  - unfold resolvable, resolves in *. simpl in H.
    destruct (find_product_by_id (product_id item)) as [product|] eqn:F.
    + unfold float_mul_int.
      destruct (int_to_float (quantity item)) as [y|] eqn:Y; [|done].
      apply Exists_cons in H as [H|H]; [|by apply IH].
      unfold out_of_float_range in H. congruence.
    + by apply IH.
Qed.

(** X6. [get_cart] and [checkout] raise [OverflowError], each of them,
    exactly when the user's cart holds a line of a catalogue product whose
    quantity does not convert to a float; the stores are then unchanged: the
    cart is not cleared, and every further [checkout] raises again until the
    quantity is brought back into range. *)
Theorem overflow_exactly_out_of_range (user_id : Z) (st : state) :
  (fst (get_cart user_id st) = OverflowError <->
   Exists out_of_float_range (resolvable (cart_of st user_id)))
  /\ (fst (checkout user_id st) = OverflowError <->
      Exists out_of_float_range (resolvable (cart_of st user_id)))
  /\ (fst (checkout user_id st) = OverflowError ->
      snd (checkout user_id st) = st
      /\ checkout user_id (snd (checkout user_id st)) = (OverflowError, st)).
Proof.
  assert (fst (checkout user_id st) = OverflowError ->
          checkout user_id st = (OverflowError, st)) as Hsame.
  { destruct (checkout_cases user_id st)
      as [[_ E]|[(c & _ & _ & _ & E)|(c & items & sub & _ & _ & _ & E)]];
      rewrite E; simpl; by try discriminate. }
  split; [|split].
  - unfold get_cart, cart_of.
    destruct (carts_db st !! user_id) as [cart|] eqn:L; simpl.
    2:{ split; [discriminate|]. intros H. by apply Exists_nil in H. }
    destruct (float_range_dec (resolvable cart)) as [HF|HE].
    + destruct (get_cart_loop_total cart HF [] 0) as [[items count] ->]. simpl.
      split; [discriminate|]. intros HE. destruct (float_range_exclusive _ HF HE).
    + by rewrite (get_cart_loop_overflow cart HE).
  - destruct (checkout_cases user_id st)
      as [[Hempty E]|[(c & L & _ & C & E)|(c & items & sub & L & _ & C & E)]];
      rewrite E; simpl; unfold cart_of.
    + split; [discriminate|].
      destruct Hempty as [->| ->]; simpl; intros H; by apply Exists_nil in H.
    + rewrite L. simpl. split; [|done]. intros _.
      destruct (float_range_dec (resolvable c)) as [HF|HE]; [|done].
      destruct (checkout_loop_total c HF [] 0%float) as [? H]. congruence.
    + rewrite L. simpl. split; [discriminate|]. intros HE.
      rewrite (checkout_loop_overflow c HE) in C. discriminate C.
  - intros H. rewrite (Hsame H). simpl. split; [done|]. by apply Hsame.
Qed.

Lemma overflow_exactly_out_of_range_witness :
  Exists out_of_float_range (resolvable (cart_of st_huge 1))
  /\ fst (get_cart 1 st_huge) = OverflowError
  /\ fst (checkout 1 st_huge) = OverflowError
  /\ snd (checkout 1 st_huge) = st_huge
  /\ checkout 1 (snd (checkout 1 st_huge)) = (OverflowError, st_huge).
Proof.
  assert (Exists out_of_float_range (resolvable (cart_of st_huge 1))) as HE.
  { left. vm_compute. reflexivity. }
  destruct (overflow_exactly_out_of_range 1 st_huge) as (G & C & S).
  split; [exact HE|]. split; [exact (proj2 G HE)|]. split; [exact (proj2 C HE)|].
  exact (S (proj2 C HE)).
Defined.

(** ** 21. Checkouts of different users *)

Lemma checkout_state (user_id : Z) (st : state) :
  (~ (exists r, fst (checkout user_id st) = Return r)
   /\ snd (checkout user_id st) = st)
  \/ ((exists r, fst (checkout user_id st) = Return r)
      /\ snd (checkout user_id st) = with_cart st user_id []).
Proof.
  destruct (checkout_cases user_id st)
    as [[_ E]|[(c & _ & _ & _ & E)|(c & items & sub & _ & _ & _ & E)]];
    rewrite E; simpl.
  - left. split; [|done]. intros [r H]. discriminate H.
  - left. split; [|done]. intros [r H]. discriminate H.
  - right. split; [by eexists|done].
Qed.

Lemma checkout_outcome_local (user_id : Z) (st st' : state) :
  carts_db st' !! user_id = carts_db st !! user_id ->
  fst (checkout user_id st') = fst (checkout user_id st).
Proof.
  intros H. unfold checkout. rewrite H.
  destruct (carts_db st !! user_id) as [[|item rest]|]; try done.
  by destruct (checkout_loop _ _ _) as [[? ?]|].
Qed.

Lemma get_cart_outcome_local (user_id : Z) (st st' : state) :
  carts_db st' !! user_id = carts_db st !! user_id ->
  fst (get_cart user_id st') = fst (get_cart user_id st).
Proof.
  intros H. unfold get_cart. rewrite H.
  destruct (carts_db st !! user_id) as [cart|]; try done.
  by destruct (get_cart_loop _ _ _) as [[? ?]|].
Qed.

(** X7. [checkout] for one user leaves what [get_cart] and [checkout] return
    for every other user as it was; and the checkouts of two different users
    can be served in either order: each returns the same either way, and the
    stores end up the same. *)
Theorem checkout_of_other_user (a b : Z) (st : state) :
  a <> b ->
  fst (get_cart a (snd (checkout b st))) = fst (get_cart a st)
  /\ fst (checkout a (snd (checkout b st))) = fst (checkout a st)
  /\ fst (checkout b (snd (checkout a st))) = fst (checkout b st)
  /\ snd (checkout a (snd (checkout b st))) = snd (checkout b (snd (checkout a st))).
Proof.
  intros Hab.
  assert (forall x y s, x <> y ->
             carts_db (snd (checkout y s)) !! x = carts_db s !! x) as Hframe.
  { intros x y s Hxy. destruct (checkout_state y s) as [[_ ->]|[_ ->]]; [done|].
    simpl. by apply lookup_insert_ne. }
  assert (forall x y s, x <> y ->
             fst (checkout x (snd (checkout y s))) = fst (checkout x s)) as Hout.
  { intros x y s Hxy. apply checkout_outcome_local. by apply Hframe. }
  split; [apply get_cart_outcome_local; by apply Hframe|].
  split; [by apply Hout|]. split; [by apply Hout|].
  destruct (checkout_state a (snd (checkout b st))) as [[Sa' Ea']|[Sa' Ea']];
    destruct (checkout_state b (snd (checkout a st))) as [[Sb' Eb']|[Sb' Eb']];
    destruct (checkout_state a st) as [[Sa Ea]|[Sa Ea]];
    destruct (checkout_state b st) as [[Sb Eb]|[Sb Eb]];
    rewrite (Hout a b st) in Sa' by done;
    rewrite (Hout b a st) in Sb' by done;
    try tauto;
    rewrite Ea', Eb', ?Ea, ?Eb; try done.
  unfold with_cart. simpl. f_equal. by apply insert_insert_ne.
Qed.

Lemma checkout_of_other_user_witness :
  1 <> 2
  /\ fst (get_cart 1 (snd (checkout 2 st_two_users))) = fst (get_cart 1 st_two_users)
  /\ snd (checkout 1 (snd (checkout 2 st_two_users)))
     = snd (checkout 2 (snd (checkout 1 st_two_users))).
Proof.
  assert (1 <> 2) as Hne by discriminate.
  destruct (checkout_of_other_user 1 2 st_two_users Hne) as (G & _ & _ & S).
  split; [exact Hne|]. split; [exact G|exact S].
Defined.

(** ** 22. The user directory *)

Lemma find_app_Some {A} (f : A -> bool) (l l' : list A) (x : A) :
  find f l = Some x -> find f (l ++ l') = Some x.
Proof.
  induction l as [|y l IH]; simpl; [discriminate|].
  destruct (f y); [done|apply IH].
Qed.

Lemma find_app_None {A} (f : A -> bool) (l l' : list A) :
  find f l = None -> find f (l ++ l') = find f l'.
Proof.
  induction l as [|y l IH]; simpl; [done|].
  destruct (f y); [discriminate|apply IH].
Qed.

Lemma add_to_cart_keeps_users (cart_item : CartItem) (user_id : Z) (st : state) :
  users_db (snd (add_to_cart cart_item user_id st)) = users_db st.
Proof.
  destruct (add_to_cart_cases cart_item user_id st)
    as [[_ E]|[(_ & _ & E)|(_ & _ & E)]]; by rewrite E.
Qed.

Lemma find_user_by_username_None (st : state) (username : string) :
  find_user_by_username st username = None ->
  ~ In username (map u_username (users_db st)).
Proof.
  intros H Hin. apply in_map_iff in Hin as (user & Heq & Hin).
  destruct (find_user_by_username_hit st username user Hin Heq) as [? E].
  congruence.
Qed.

Lemma find_user_by_email_None (st : state) (email : string) :
  find_user_by_email st email = None ->
  ~ In email (map u_email (users_db st)).
Proof.
  intros H Hin. apply in_map_iff in Hin as (user & Heq & Hin).
  destruct (find_user_by_email_hit st email user Hin Heq) as [? E].
  congruence.
Qed.

Section Directory.

Variable bcrypt_hashpw : string -> string -> string.
Variable bcrypt_checkpw : string -> string -> option bool.

(** Only a successful [register_user] changes [users_db], by appending the
    user it was asked to create. *)
Lemma serve_users (st : state) (rq : request) :
  users_db (serve bcrypt_hashpw bcrypt_checkpw st rq) = users_db st
  \/ (exists salt user_data,
        rq = Register salt user_data
        /\ find_user_by_username st (reg_username user_data) = None
        /\ find_user_by_email st (reg_email user_data) = None
        /\ users_db (serve bcrypt_hashpw bcrypt_checkpw st rq)
           = users_db st ++
               [ {| u_id := next_user_id st;
                    u_username := reg_username user_data;
                    u_email := reg_email user_data;
                    u_hashed_password :=
                      hash_password bcrypt_hashpw salt (reg_password user_data) |} ]).
Proof.
  destruct rq as [salt user_data|login_data|cart_item user_id|user_id|user_id].
  - simpl. destruct (register_user_cases bcrypt_hashpw salt user_data st)
      as [[_ E]|[(_ & _ & E)|(Hu & He & E)]]; rewrite E; simpl;
      [by left|by left|].
    right. by exists salt, user_data.
  - left. simpl. by rewrite login_keeps_state.
  - left. apply add_to_cart_keeps_users.
  - left. simpl. by rewrite get_cart_keeps_state.
  - left. simpl. destruct (checkout_state user_id st) as [[_ ->]|[_ ->]]; done.
Qed.

Lemma serve_names_unique (st : state) (rq : request) :
  names_unique st -> names_unique (serve bcrypt_hashpw bcrypt_checkpw st rq).
Proof.
  intros [Hu He]. unfold names_unique.
  destruct (serve_users st rq) as [->|(salt & user_data & _ & Fu & Fe & ->)]; [done|].
  rewrite !map_app. simpl. split.
  - apply NoDup_app. split; [done|]. split; [|apply NoDup_singleton].
    intros name Hin Hin'. apply list_elem_of_singleton in Hin'. subst name.
    apply list_elem_of_In in Hin. by apply find_user_by_username_None in Fu.
  - apply NoDup_app. split; [done|]. split; [|apply NoDup_singleton].
    intros name Hin Hin'. apply list_elem_of_singleton in Hin'. subst name.
    apply list_elem_of_In in Hin. by apply find_user_by_email_None in Fe.
Qed.

Lemma reachable_names_unique (st : state) :
  reachable bcrypt_hashpw bcrypt_checkpw st -> names_unique st.
Proof.
  induction 1 as [|st rq _ IH].
  - split; constructor.
  - by apply serve_names_unique.
Qed.

Lemma serve_carts_for_all (st : state) (rq : request) :
  carts_for_all st -> carts_for_all (serve bcrypt_hashpw bcrypt_checkpw st rq).
Proof.
  intros H.
  destruct (serve_cases bcrypt_hashpw bcrypt_checkpw st rq)
    as [->|[(new_user & Hid & ->)|[(ci & uid & _ & _ & ->)|(uid & cart & _ & ->)]]];
    [done|..]; intros user_id; unfold registered; simpl; intros Hreg;
    apply lookup_insert_is_Some'.
  - rewrite map_app, in_app_iff in Hreg. simpl in Hreg.
    destruct Hreg as [Hreg|[Hreg|[]]]; [right; by apply H|left; congruence].
  - right. by apply H.
  - right. by apply H.
Qed.

Lemma reachable_carts_for_all (st : state) :
  reachable bcrypt_hashpw bcrypt_checkpw st -> carts_for_all st.
Proof.
  induction 1 as [|st rq _ IH].
  - intros user_id [].
  - by apply serve_carts_for_all.
Qed.

End Directory.

Lemma find_unique {A} (f : A -> bool) (key : A -> string) (l : list A) (x : A) :
  (forall y, f y = String.eqb (key y) (key x)) ->
  NoDup (map key l) -> In x l -> find f l = Some x.
Proof.
  intros Hf. induction l as [|y l IH]; simpl; intros Hnd Hin; [done|].
  apply NoDup_cons in Hnd as [Hy Hnd].
  destruct Hin as [->|Hin].
  - by rewrite Hf, String.eqb_refl.
  - rewrite Hf. destruct (String.eqb_spec (key y) (key x)) as [E|E].
    + destruct Hy. rewrite E. apply list_elem_of_In. by apply in_map.
    + by apply IH.
Qed.

Lemma ids_sequential_unique (st : state) :
  ids_sequential st -> NoDup (map u_id (users_db st)).
Proof.
  intros [Hids _]. rewrite Hids. apply (NoDup_fmap_2 Z.of_nat), NoDup_seq.
Qed.

(** X8. In every reachable state no two users have the same username, no two
    the same email and no two the same id; so every stored user is the one
    that [find_user_by_username] returns for their username and
    [find_user_by_email] for their email. *)
Theorem users_are_unique
    (bcrypt_hashpw : string -> string -> string)
    (bcrypt_checkpw : string -> string -> option bool) (st : state) :
  reachable bcrypt_hashpw bcrypt_checkpw st ->
  NoDup (map u_username (users_db st))
  /\ NoDup (map u_email (users_db st))
  /\ NoDup (map u_id (users_db st))
  /\ (forall user, In user (users_db st) ->
        find_user_by_username st (u_username user) = Some user
        /\ find_user_by_email st (u_email user) = Some user).
Proof.
  intros Hreach.
  pose proof (reachable_names_unique _ _ _ Hreach) as [Hu He].
  apply reachable_invariants in Hreach as (_ & _ & _ & Hseq).
  split; [exact Hu|]. split; [exact He|]. split.
  - by apply ids_sequential_unique.
  - intros user Hin. split.
    + unfold find_user_by_username. by apply (find_unique _ u_username).
    + unfold find_user_by_email. by apply (find_unique _ u_email).
Qed.

Lemma users_are_unique_witness :
  reachable example_hashpw example_checkpw st_two_users
  /\ NoDup (map u_username (users_db st_two_users))
  /\ NoDup (map u_email (users_db st_two_users))
  /\ (exists user, find_user_by_email st_two_users "bob@example.com" = Some user
                   /\ u_id user = 2).
Proof.
  assert (reachable example_hashpw example_checkpw st_two_users) as R.
  { exact (reachable_serve _ _ _ _ (reachable_serve _ _ _ _ (reachable_serve _ _ _ _
             (reachable_serve _ _ _ _ (reachable_serve _ _ _ _
                (reachable_initial _ _)))))). }
  destruct (users_are_unique example_hashpw example_checkpw st_two_users R)
    as (Hu & He & _ & Hfind).
  split; [exact R|]. split; [exact Hu|]. split; [exact He|].
  exists {| u_id := 2; u_username := "bob"; u_email := "bob@example.com";
            u_hashed_password := "s2builder" |}.
  split; [|reflexivity].
  apply (Hfind {| u_id := 2; u_username := "bob"; u_email := "bob@example.com";
                  u_hashed_password := "s2builder" |}).
  right. left. reflexivity.
Defined.

(** ** 23. Nothing is ever removed *)

Lemma serve_carts_kept
    (bcrypt_hashpw : string -> string -> string)
    (bcrypt_checkpw : string -> string -> option bool)
    (st : state) (rq : request) (user_id : Z) :
  is_Some (carts_db st !! user_id) ->
  is_Some (carts_db (serve bcrypt_hashpw bcrypt_checkpw st rq) !! user_id).
Proof.
  intros H.
  destruct (serve_cases bcrypt_hashpw bcrypt_checkpw st rq)
    as [->|[(new_user & _ & ->)|[(ci & uid & _ & _ & ->)|(uid & cart & _ & ->)]]];
    [done|..]; simpl; apply lookup_insert_is_Some'; by right.
Qed.

Lemma serve_counter
    (bcrypt_hashpw : string -> string -> string)
    (bcrypt_checkpw : string -> string -> option bool)
    (st : state) (rq : request) :
  next_user_id st <= next_user_id (serve bcrypt_hashpw bcrypt_checkpw st rq).
Proof.
  destruct (serve_cases bcrypt_hashpw bcrypt_checkpw st rq)
    as [E|[(new_user & _ & E)|[(ci & uid & _ & _ & E)|(uid & cart & _ & E)]]];
    rewrite E; simpl; lia.
Qed.

Lemma serve_all_users
    (bcrypt_hashpw : string -> string -> string)
    (bcrypt_checkpw : string -> string -> option bool)
    (st : state) (rqs : list request) :
  exists added,
    users_db (serve_all bcrypt_hashpw bcrypt_checkpw st rqs) = users_db st ++ added.
Proof.
  unfold serve_all. revert st. induction rqs as [|rq rqs IH]; intros st; simpl.
  - exists []. by rewrite app_nil_r.
  - destruct (IH (serve bcrypt_hashpw bcrypt_checkpw st rq)) as (added & ->).
    destruct (serve_users bcrypt_hashpw bcrypt_checkpw st rq)
      as [->|(salt & user_data & _ & _ & _ & ->)]; [by eexists|].
    rewrite <- app_assoc. by eexists.
Qed.

(** X9. Whatever requests are served, users are only appended, in order, to
    [users_db] (none is removed, changed or moved), the counter never
    decreases, and a cart entry that exists keeps existing. *)
Theorem stores_only_grow
    (bcrypt_hashpw : string -> string -> string)
    (bcrypt_checkpw : string -> string -> option bool)
    (st : state) (rqs : list request) :
  (exists added,
      users_db (serve_all bcrypt_hashpw bcrypt_checkpw st rqs) = users_db st ++ added)
  /\ next_user_id st <= next_user_id (serve_all bcrypt_hashpw bcrypt_checkpw st rqs)
  /\ (forall user_id,
        is_Some (carts_db st !! user_id) ->
        is_Some (carts_db (serve_all bcrypt_hashpw bcrypt_checkpw st rqs) !! user_id)).
Proof.
  split; [apply serve_all_users|].
  unfold serve_all. revert st. induction rqs as [|rq rqs IH]; intros st; simpl.
  - split; [lia|done].
  - destruct (IH (serve bcrypt_hashpw bcrypt_checkpw st rq)) as (Hnext & Hcarts).
    split.
    + pose proof (serve_counter bcrypt_hashpw bcrypt_checkpw st rq). lia.
    + intros user_id H. by apply Hcarts, serve_carts_kept.
Qed.

Lemma stores_only_grow_witness :
  let rqs := [Register "s2" bob; Checkout 1; Register "s9" alice] in
  users_db (serve_all example_hashpw example_checkpw st_two_lines rqs)
  = users_db st_two_lines ++
      [ {| u_id := 2; u_username := "bob"; u_email := "bob@example.com";
           u_hashed_password := "s2builder" |} ]
  /\ is_Some (carts_db st_two_lines !! 1)
  /\ is_Some (carts_db (serve_all example_hashpw example_checkpw st_two_lines rqs) !! 1).
Proof.
  intros rqs.
  destruct (stores_only_grow example_hashpw example_checkpw st_two_lines rqs)
    as (_ & _ & Hcarts).
  assert (is_Some (carts_db st_two_lines !! 1)) as H1 by (by eexists).
  split; [vm_compute; reflexivity|]. split; [exact H1|exact (Hcarts 1 H1)].
Defined.

(** ** 24. Logging in after registering *)

(** X10. After a successful registration, and whatever requests are served
    afterwards, provided [bcrypt.checkpw] accepts the password against the
    hash stored for it: a login with the username and the password succeeds
    and returns the view that the registration returned, if the username
    contains no "@"; so does a login with the email and the password, if the
    email contains an "@". *)
Theorem login_after_register
    (bcrypt_hashpw : string -> string -> string)
    (bcrypt_checkpw : string -> string -> option bool)
    (salt : string) (user_data : UserRegister) (st st' : state)
    (r : UserResponse) (rqs : list request) :
  register_user bcrypt_hashpw salt user_data st = (Return r, st') ->
  bcrypt_checkpw (reg_password user_data)
    (bcrypt_hashpw (reg_password user_data) salt) = Some true ->
  let later := serve_all bcrypt_hashpw bcrypt_checkpw st' rqs in
  (contains_at (reg_username user_data) = false ->
   login_user bcrypt_checkpw
     {| username_or_email := reg_username user_data;
        login_password := reg_password user_data |} later
   = (Return {| login_message := "Login successful"; login_user_view := r |}, later))
  /\ (contains_at (reg_email user_data) = true ->
      login_user bcrypt_checkpw
        {| username_or_email := reg_email user_data;
           login_password := reg_password user_data |} later
      = (Return {| login_message := "Login successful"; login_user_view := r |}, later)).
Proof.
  intros Hreg Hpw later.
  destruct (register_user_cases bcrypt_hashpw salt user_data st)
    as [[_ E]|[(_ & _ & E)|(Fu & Fe & E)]]; rewrite E in Hreg;
    try discriminate Hreg.
  inversion Hreg as [[Hr Hst]]. clear Hreg.
  set (new_user := {| u_id := next_user_id st;
                      u_username := reg_username user_data;
                      u_email := reg_email user_data;
                      u_hashed_password :=
                        hash_password bcrypt_hashpw salt (reg_password user_data) |}).
  destruct (serve_all_users bcrypt_hashpw bcrypt_checkpw st' rqs) as (added & Hadd).
  fold later in Hadd. rewrite <- Hst in Hadd. simpl in Hadd. fold new_user in Hadd.
  assert (find_user_by_username later (reg_username user_data) = Some new_user) as Lu.
  { unfold find_user_by_username. rewrite Hadd, <- app_assoc.
    rewrite find_app_None by exact Fu. simpl. by rewrite String.eqb_refl. }
  assert (find_user_by_email later (reg_email user_data) = Some new_user) as Le.
  { unfold find_user_by_email. rewrite Hadd, <- app_assoc.
    rewrite find_app_None by exact Fe. simpl. by rewrite String.eqb_refl. }
  split; intros Hat; unfold login_user, find_user_by_username_or_email; simpl;
    rewrite Hat, ?Lu, ?Le; simpl;
    unfold verify_password, hash_password; by rewrite Hpw.
Qed.

Lemma login_after_register_witness :
  let later := serve_all example_hashpw example_checkpw st_alice
                 [Register "s2" bob; AddToCart {| product_id := 1; quantity := 1 |} 1] in
  let view := {| r_id := 1; r_username := "alice"; r_email := "alice@example.com" |} in
  register_user example_hashpw "s1" alice initial_state = (Return view, st_alice)
  /\ example_checkpw "wonderland" (example_hashpw "wonderland" "s1") = Some true
  /\ login_user example_checkpw
       {| username_or_email := "alice"; login_password := "wonderland" |} later
     = (Return {| login_message := "Login successful"; login_user_view := view |}, later)
  /\ login_user example_checkpw
       {| username_or_email := "alice@example.com"; login_password := "wonderland" |}
       later
     = (Return {| login_message := "Login successful"; login_user_view := view |}, later).
Proof.
  intros later view.
  assert (register_user example_hashpw "s1" alice initial_state
          = (Return view, st_alice)) as R by (vm_compute; reflexivity).
  assert (example_checkpw (reg_password alice)
            (example_hashpw (reg_password alice) "s1") = Some true) as P
    by (vm_compute; reflexivity).
  destruct (login_after_register example_hashpw example_checkpw "s1" alice
              initial_state st_alice view
              [Register "s2" bob; AddToCart {| product_id := 1; quantity := 1 |} 1]
              R P) as [Hu He].
  split; [exact R|]. split; [exact P|]. split.
  - apply Hu. reflexivity.
  - apply He. reflexivity.
Defined.

(** X11. An identifier that contains an "@" is only ever looked up among the
    emails: when no user has it as email, [login_user] raises
    [InvalidCredentials] even if a user has it as username and the password
    verifies.  A user registered with an "@" in the username cannot log in
    with that username. *)
Theorem username_with_at_cannot_login
    (bcrypt_checkpw : string -> string -> option bool)
    (st : state) (login_data : UserLogin) (user : User) :
  In user (users_db st) ->
  u_username user = username_or_email login_data ->
  bcrypt_checkpw (login_password login_data) (u_hashed_password user) = Some true ->
  contains_at (username_or_email login_data) = true ->
  (forall other, In other (users_db st) ->
                 u_email other <> username_or_email login_data) ->
  find_user_by_username st (username_or_email login_data) <> None
  /\ login_user bcrypt_checkpw login_data st = (InvalidCredentials, st).
Proof.
  intros Hin Hname _ Hat Hmail. split.
  - destruct (find_user_by_username_hit st _ user Hin Hname) as [? ->]. discriminate.
  - unfold login_user, find_user_by_username_or_email. rewrite Hat.
    by rewrite (find_user_by_email_miss st _ Hmail).
Qed.

Lemma username_with_at_cannot_login_witness :
  let stored := {| u_id := 2; u_username := "m@llory"; u_email := "mallory@example.com";
                   u_hashed_password := "s3secret" |} in
  In stored (users_db st_mallory)
  /\ example_checkpw "secret" (u_hashed_password stored) = Some true
  /\ login_user example_checkpw
       {| username_or_email := "m@llory"; login_password := "secret" |} st_mallory
     = (InvalidCredentials, st_mallory)
  /\ fst (login_user example_checkpw
            {| username_or_email := "mallory@example.com"; login_password := "secret" |}
            st_mallory)
     = Return {| login_message := "Login successful";
                 login_user_view := user_view stored |}.
Proof.
  intros stored.
  assert (In stored (users_db st_mallory)) as Hin by (right; left; reflexivity).
  assert (example_checkpw "secret" (u_hashed_password stored) = Some true) as P
    by (vm_compute; reflexivity).
  split; [exact Hin|]. split; [exact P|]. split; [|vm_compute; reflexivity].
  apply (username_with_at_cannot_login example_checkpw st_mallory
           {| username_or_email := "m@llory"; login_password := "secret" |} stored
           Hin eq_refl P eq_refl).
  intros other [<-|[<-|[]]]; discriminate.
Defined.

(** ** 25. Listing the users, and the statistics *)

(** X12. Serving a request leaves the list of [get_all_users] as it was,
    except a [register_user] that succeeds: the list is then the one before
    with the view that the registration returned appended at its end.  In a
    reachable state the ids listed are 1, 2, ..., n. *)
Theorem get_all_users_lists_registrations
    (bcrypt_hashpw : string -> string -> string)
    (bcrypt_checkpw : string -> string -> option bool)
    (st : state) (rq : request) :
  (get_all_users (serve bcrypt_hashpw bcrypt_checkpw st rq) = get_all_users st
   \/ exists salt user_data r,
       rq = Register salt user_data
       /\ register_user bcrypt_hashpw salt user_data st
          = (Return r, serve bcrypt_hashpw bcrypt_checkpw st rq)
       /\ get_all_users (serve bcrypt_hashpw bcrypt_checkpw st rq)
          = get_all_users st ++ [r])
  /\ (forall salt user_data r st',
        register_user bcrypt_hashpw salt user_data st = (Return r, st') ->
        get_all_users st' = get_all_users st ++ [r])
  /\ (reachable bcrypt_hashpw bcrypt_checkpw st ->
      map r_id (get_all_users st) = map Z.of_nat (seq 1 (length (users_db st)))).
Proof.
  assert (forall salt user_data r st',
             register_user bcrypt_hashpw salt user_data st = (Return r, st') ->
             get_all_users st' = get_all_users st ++ [r]) as Hreg.
  { intros salt user_data r st' H.
    destruct (register_user_cases bcrypt_hashpw salt user_data st)
      as [[_ E]|[(_ & _ & E)|(_ & _ & E)]]; rewrite E in H; try discriminate H.
    inversion H; subst r st'. unfold get_all_users. simpl. by rewrite map_app. }
  split; [|split; [exact Hreg|]].
  - destruct rq as [salt user_data|login_data|cart_item user_id|user_id|user_id];
      unfold get_all_users; simpl.
    + destruct (register_user bcrypt_hashpw salt user_data st) as [[r| | |] st'] eqn:E;
        simpl.
      * right. exists salt, user_data, r. split; [done|]. split; [done|].
        by apply (Hreg salt user_data).
      * left. destruct (register_user_cases bcrypt_hashpw salt user_data st)
          as [[_ E']|[(_ & _ & E')|(_ & _ & E')]]; rewrite E' in E;
          inversion E; by subst.
      * left. destruct (register_user_cases bcrypt_hashpw salt user_data st)
          as [[_ E']|[(_ & _ & E')|(_ & _ & E')]]; rewrite E' in E;
          inversion E.
      * left. destruct (register_user_cases bcrypt_hashpw salt user_data st)
          as [[_ E']|[(_ & _ & E')|(_ & _ & E')]]; rewrite E' in E;
          inversion E.
    + left. by rewrite login_keeps_state.
    + left. f_equal. apply add_to_cart_keeps_users.
    + left. by rewrite get_cart_keeps_state.
    + left. destruct (checkout_state user_id st) as [[_ ->]|[_ ->]]; done.
  - intros Hreach.
    apply reachable_invariants in Hreach as (_ & _ & _ & [Hids _]).
    rewrite <- Hids. unfold get_all_users. rewrite map_map. done.
Qed.

Lemma get_all_users_lists_registrations_witness :
  get_all_users st_alice
  = [ {| r_id := 1; r_username := "alice"; r_email := "alice@example.com" |} ]
  /\ (exists st',
        register_user example_hashpw "s2" bob st_alice
        = (Return {| r_id := 2; r_username := "bob"; r_email := "bob@example.com" |}, st')
        /\ get_all_users st'
           = [ {| r_id := 1; r_username := "alice"; r_email := "alice@example.com" |};
               {| r_id := 2; r_username := "bob"; r_email := "bob@example.com" |} ]).
Proof.
  split; [reflexivity|].
  destruct (register_user example_hashpw "s2" bob st_alice) as [o st'] eqn:E.
  assert (o = Return {| r_id := 2; r_username := "bob"; r_email := "bob@example.com" |})
    as -> by (apply (f_equal fst) in E; vm_compute in E; by subst o).
  exists st'. split; [reflexivity|].
  exact (proj1 (proj2 (get_all_users_lists_registrations
                         example_hashpw example_checkpw st_alice (GetCart 1)))
           "s2" bob _ st' E).
Defined.

(** X13. In every reachable state the cart entries are exactly those of the
    registered users: [get_cart] raises [CartNotFound] exactly for the ids
    that are not registered, and in [get_stats] the number of carts is the
    number of users, which is the counter minus one. *)
Theorem carts_exactly_for_users
    (bcrypt_hashpw : string -> string -> string)
    (bcrypt_checkpw : string -> string -> option bool) (st : state) :
  reachable bcrypt_hashpw bcrypt_checkpw st ->
  (forall user_id, registered st user_id <-> is_Some (carts_db st !! user_id))
  /\ (forall user_id,
        fst (get_cart user_id st) = CartNotFound <-> ~ registered st user_id)
  /\ users_with_carts (get_stats st) = total_users (get_stats st)
  /\ total_users (get_stats st) = next_user_id st - 1.
Proof.
  intros Hreach.
  pose proof (reachable_carts_for_all _ _ _ Hreach) as Hall.
  apply reachable_invariants in Hreach as (_ & Hown & _ & Hseq).
  pose proof (ids_sequential_unique st Hseq) as Hnd.
  destruct Hseq as [_ Hnext].
  assert (forall user_id, registered st user_id <-> is_Some (carts_db st !! user_id))
    as Hiff.
  { intros user_id. split; [apply Hall|]. intros [cart L]. by apply (Hown _ _ L). }
  split; [exact Hiff|]. split; [|split].
  - intros user_id. rewrite Hiff, <- eq_None_not_Some. unfold get_cart.
    destruct (carts_db st !! user_id) as [cart|]; [|done].
    split; [|discriminate].
    by destruct (get_cart_loop cart [] 0) as [[? ?]|].
  - simpl. f_equal.
    assert (dom (carts_db st) = list_to_set (map u_id (users_db st))) as Hdom.
    { apply set_eq. intros user_id.
      rewrite elem_of_dom, elem_of_list_to_set, list_elem_of_In. symmetry. apply Hiff. }
    rewrite <- size_dom, Hdom, size_list_to_set by exact Hnd.
    by rewrite length_map.
  - simpl. lia.
Qed.

Lemma carts_exactly_for_users_witness :
  reachable example_hashpw example_checkpw st_two_users
  /\ fst (get_cart 3 st_two_users) = CartNotFound
  /\ fst (get_cart 2 st_two_users) <> CartNotFound
  /\ users_with_carts (get_stats st_two_users) = 2
  /\ total_users (get_stats st_two_users) = 2.
Proof.
  assert (reachable example_hashpw example_checkpw st_two_users) as R.
  { exact (reachable_serve _ _ _ _ (reachable_serve _ _ _ _ (reachable_serve _ _ _ _
             (reachable_serve _ _ _ _ (reachable_serve _ _ _ _
                (reachable_initial _ _)))))). }
  destruct (carts_exactly_for_users example_hashpw example_checkpw st_two_users R)
    as (_ & Hget & Hstats & Hcount).
  split; [exact R|]. split; [|split; [|split]].
  - apply Hget. intros [H|[H|[]]]; discriminate H.
  - intros H. apply Hget in H. apply H. right. left. reflexivity.
  - rewrite Hstats, Hcount. reflexivity.
  - rewrite Hcount. reflexivity.
Defined.

Lemma sum_cart_lengths_fresh (carts : gmap Z (list CartItem)) (user_id : Z)
    (cart : list CartItem) :
  carts !! user_id = None ->
  sum_cart_lengths (<[user_id := cart]> carts)
  = sum_cart_lengths carts + Z.of_nat (length cart).
Proof.
  intros H. unfold sum_cart_lengths.
  rewrite map_fold_insert_L; [done| |done].
  intros. lia.
Qed.

(** Storing a cart changes the sum by the difference of the lengths. *)
Lemma sum_cart_lengths_insert (carts : gmap Z (list CartItem)) (user_id : Z)
    (cart : list CartItem) :
  sum_cart_lengths (<[user_id := cart]> carts)
  = sum_cart_lengths carts
    - Z.of_nat (length (default [] (carts !! user_id)))
    + Z.of_nat (length cart).
Proof.
  destruct (carts !! user_id) as [old|] eqn:L; simpl.
  - rewrite <- (insert_delete_eq carts).
    rewrite <- (insert_delete_id carts user_id old L) at 2.
    rewrite !sum_cart_lengths_fresh by apply lookup_delete_eq. lia.
  - rewrite sum_cart_lengths_fresh by done. lia.
Qed.

Lemma sum_cart_lengths_nonneg (carts : gmap Z (list CartItem)) :
  0 <= sum_cart_lengths carts.
Proof.
  unfold sum_cart_lengths.
  apply (map_fold_weak_ind (fun total _ => 0 <= total)); [done|].
  intros user_id cart m total _ H. lia.
Qed.

(** X14. The [total_cart_items] of [get_stats] follows the carts: a
    successful [add_to_cart] raises it by one when the cart had no line for
    the product and leaves it unchanged when it had one; a successful
    [checkout] lowers it by the number of lines of the cart it clears; and it
    is never negative. *)
Theorem total_cart_items_follows_carts (user_id : Z) (st : state) :
  (forall cart_item r st',
      add_to_cart cart_item user_id st = (Return r, st') ->
      (In (product_id cart_item) (map product_id (cart_of st user_id)) ->
       total_cart_items (get_stats st') = total_cart_items (get_stats st))
      /\ (~ In (product_id cart_item) (map product_id (cart_of st user_id)) ->
          total_cart_items (get_stats st') = total_cart_items (get_stats st) + 1))
  /\ (forall r st',
        checkout user_id st = (Return r, st') ->
        total_cart_items (get_stats st')
        = total_cart_items (get_stats st) - Z.of_nat (length (cart_of st user_id)))
  /\ 0 <= total_cart_items (get_stats st).
Proof.
  split; [|split].
  - intros cart_item r st' H.
    destruct (add_to_cart_cases cart_item user_id st)
      as [[_ E]|[(_ & _ & E)|(_ & _ & E)]]; rewrite E in H; try discriminate H.
    inversion H; subst r st'. simpl.
    rewrite sum_cart_lengths_insert. fold (cart_of st user_id).
    unfold cart_after_add.
    destruct (merge_into (cart_of st user_id) cart_item) as [merged|] eqn:M.
    + split.
      * intros _.
        rewrite <- (length_map product_id merged),
          (merge_into_products _ _ _ M), length_map. lia.
      * intros Hnot. apply merge_into_None in Hnot. congruence.
    + split.
      * intros Hin. by apply merge_into_None in M.
      * intros _. rewrite length_app. simpl. lia.
  - intros r st' H.
    destruct (checkout_cases user_id st)
      as [[_ E]|[(c & _ & _ & _ & E)|(c & items & sub & _ & _ & _ & E)]];
      rewrite E in H; try discriminate H.
    inversion H; subst r st'. simpl.
    rewrite sum_cart_lengths_insert. fold (cart_of st user_id). simpl. lia.
  - apply sum_cart_lengths_nonneg.
Qed.

Lemma total_cart_items_follows_carts_witness :
  total_cart_items (get_stats st_two_users) = 3
  /\ (exists r st',
        checkout 1 st_two_users = (Return r, st')
        /\ total_cart_items (get_stats st') = 3 - 2)
  /\ (exists r st',
        add_to_cart {| product_id := 5; quantity := 4 |} 2 st_two_users = (Return r, st')
        /\ total_cart_items (get_stats st') = 3).
Proof.
  assert (total_cart_items (get_stats st_two_users) = 3) as T
    by (vm_compute; reflexivity).
  split; [exact T|]. split.
  - destruct (checkout 1 st_two_users) as [o st'] eqn:E.
    destruct o as [r| | |] eqn:O;
      try (apply (f_equal fst) in E; vm_compute in E; discriminate E).
    exists r, st'. split; [reflexivity|].
    rewrite (proj1 (proj2 (total_cart_items_follows_carts 1 st_two_users)) r st' E), T.
    reflexivity.
  - destruct (add_to_cart {| product_id := 5; quantity := 4 |} 2 st_two_users)
      as [o st'] eqn:E.
    destruct o as [r| | |] eqn:O;
      try (apply (f_equal fst) in E; vm_compute in E; discriminate E).
    exists r, st'. split; [reflexivity|].
    rewrite (proj1 (proj1 (total_cart_items_follows_carts 2 st_two_users) _ r st' E));
      [exact T|].
    left. reflexivity.
Defined.

(** ** 26. What [get_cart] returns *)

Lemma get_cart_loop_lines (cart : list CartItem) :
  forall items count items' count',
    get_cart_loop cart items count = Some (items', count') ->
    exists lines,
      items' = items ++ lines
      /\ count' = count + foldr Z.add 0 (map cl_quantity lines)
      /\ Forall (fun line =>
                   exists product y,
                     find_product_by_id (cl_product_id line) = Some product
                     /\ cl_name line = p_name product
                     /\ cl_price line = p_price product
                     /\ cl_image line = p_image product
                     /\ int_to_float (cl_quantity line) = Some y
                     /\ cl_item_total line = (p_price product * y)%float) lines.
Proof.
  induction cart as [|item rest IH]; simpl; intros items count items' count' H.
  - inversion H; subst. exists []. rewrite app_nil_r. simpl.
    split; [done|]. split; [lia|constructor].
  - destruct (find_product_by_id (product_id item)) as [product|] eqn:F;
      [|by apply IH in H].
    unfold float_mul_int in H.
    destruct (int_to_float (quantity item)) as [y|] eqn:Y; [|discriminate H].
    apply IH in H as (lines & -> & -> & Hall).
    eexists (_ :: lines). rewrite <- app_assoc. simpl.
    split; [done|]. split; [simpl; lia|]. constructor; [|done]. simpl.
    exists product, y. rewrite (find_product_by_id_Some _ _ F). by rewrite F.
Qed.

(** X15. Every item that [get_cart] returns carries the id, name, price and
    image of a product of the catalogue and, as item total, the float product
    of that price and the quantity of the line; [total_items] is the sum of
    the quantities of the items returned. *)
Theorem get_cart_items_are_priced (user_id : Z) (st : state) (r : CartResponse) :
  fst (get_cart user_id st) = Return r ->
  cart_user_id r = user_id
  /\ total_items r = foldr Z.add 0 (map cl_quantity (cart_items r))
  /\ Forall (fun line =>
               exists product y,
                 In product get_all_products
                 /\ p_id product = cl_product_id line
                 /\ cl_name line = p_name product
                 /\ cl_price line = p_price product
                 /\ cl_image line = p_image product
                 /\ int_to_float (cl_quantity line) = Some y
                 /\ cl_item_total line = (p_price product * y)%float) (cart_items r).
Proof.
  unfold get_cart.
  destruct (carts_db st !! user_id) as [cart|]; simpl; [|discriminate].
  destruct (get_cart_loop cart [] 0) as [[items count]|] eqn:G; [|discriminate].
  simpl. intros H. inversion H; subst r. simpl.
  apply get_cart_loop_lines in G as (lines & -> & -> & Hall). simpl.
  split; [done|]. split; [lia|].
  eapply Forall_impl; [exact Hall|]. simpl.
  intros line (product & y & F & Hrest). exists product, y.
  split; [|split; [by apply find_product_by_id_Some|exact Hrest]].
  unfold find_product_by_id in F. by apply find_some in F as [F _].
Qed.

Lemma get_cart_items_are_priced_witness :
  exists r,
    fst (get_cart 1 st_two_lines) = Return r
    /\ total_items r = foldr Z.add 0 (map cl_quantity (cart_items r))
    /\ total_items r = 3
    /\ map cl_item_total (cart_items r) = [1999.98%float; 349.99%float].
Proof.
  destruct (fst (get_cart 1 st_two_lines)) as [r| | |] eqn:G;
    try (vm_compute in G; discriminate G).
  exists r. split; [reflexivity|].
  split; [exact (proj1 (proj2 (get_cart_items_are_priced 1 st_two_lines r G)))|].
  vm_compute in G. inversion G. split; reflexivity.
Defined.

(** ** 27. Registration and the carts *)

(** X16. In a reachable state a successful [register_user] creates the cart
    entry of the new id where none was, and leaves the cart entry of every
    other id, and so every cart that existed, as it was. *)
Theorem register_keeps_carts
    (bcrypt_hashpw : string -> string -> string)
    (bcrypt_checkpw : string -> string -> option bool)
    (salt : string) (user_data : UserRegister) (st st' : state) (r : UserResponse) :
  reachable bcrypt_hashpw bcrypt_checkpw st ->
  register_user bcrypt_hashpw salt user_data st = (Return r, st') ->
  carts_db st !! r_id r = None
  /\ carts_db st' !! r_id r = Some []
  /\ (forall user_id cart,
        carts_db st !! user_id = Some cart -> carts_db st' !! user_id = Some cart)
  /\ (forall user_id, user_id <> r_id r ->
        carts_db st' !! user_id = carts_db st !! user_id).
Proof.
  intros Hreach H.
  apply reachable_invariants in Hreach as (_ & Hown & _ & Hseq).
  destruct (register_user_cases bcrypt_hashpw salt user_data st)
    as [[_ E]|[(_ & _ & E)|(_ & _ & E)]]; rewrite E in H; try discriminate H.
  inversion H; subst r st'. simpl.
  assert (carts_db st !! next_user_id st = None) as Hfresh.
  { destruct (carts_db st !! next_user_id st) as [cart|] eqn:L; [|done].
    apply Hown in L. unfold registered in L.
    apply in_map_iff in L as (user & Hid & Hin).
    pose proof (ids_sequential_bound st user Hseq Hin). lia. }
  split; [exact Hfresh|]. split; [apply lookup_insert_eq|]. split.
  - intros user_id cart L. rewrite lookup_insert_ne; [done|]. congruence.
  - intros user_id Hne. by apply lookup_insert_ne.
Qed.

Lemma register_keeps_carts_witness :
  reachable example_hashpw example_checkpw st_two_lines
  /\ exists r st',
      register_user example_hashpw "s2" bob st_two_lines = (Return r, st')
      /\ r_id r = 2
      /\ carts_db st_two_lines !! 2 = None
      /\ carts_db st' !! 2 = Some []
      /\ carts_db st' !! 1
         = Some [ {| product_id := 1; quantity := 2 |};
                  {| product_id := 4; quantity := 1 |} ].
Proof.
  assert (reachable example_hashpw example_checkpw st_two_lines) as R.
  { exact (reachable_serve _ _ _ _ (reachable_serve _ _ _ _
             (reachable_serve _ _ _ _ (reachable_initial _ _)))). }
  split; [exact R|].
  destruct (register_user example_hashpw "s2" bob st_two_lines) as [o st'] eqn:E.
  destruct o as [r| | |] eqn:O;
    try (apply (f_equal fst) in E; vm_compute in E; discriminate E).
  assert (r_id r = 2) as Hid.
  { apply (f_equal fst) in E. vm_compute in E. inversion E. reflexivity. }
  destruct (register_keeps_carts example_hashpw example_checkpw "s2" bob
              st_two_lines st' r R E) as (Hfresh & Hnew & Hold & _).
  exists r, st'. rewrite Hid in Hfresh, Hnew.
  split; [reflexivity|]. split; [exact Hid|]. split; [exact Hfresh|].
  split; [exact Hnew|]. apply Hold. reflexivity.
Defined.
